(** * Logic Legends judge worker: a shallow embedding of [api/executor.py]

    The development follows the worker module top to bottom:

    - [PyStr] and [Json]: the string primitives the worker calls
      ([str.strip], [str.upper], [str.lower], [in], [json.dumps]);
    - [CodeExecutor.execute_code]: compile-then-run inside a Docker container,
      with every exception path of the two [try] blocks;
    - [run_dynamic_checker]: the custom checker sub-execution;
    - [judge_submission]: the per-test loop with its two [break]s, the
      aggregation of the final verdict and the two writes to the
      [submissions] table;
    - [main]: the loop of the worker over the Redis list, and from
      [api/main.py] the endpoints [submit_solution] and [get_submission]
      that feed and read what the worker judges.

    Conventions.  Python [int]s are [Z].  A Python [str] is a [string] of
    ASCII text: the string functions below treat a character above 127 as
    an ordinary non-blank, caseless character.  Docker, the file system and
    the clock are outside the program: what they do during one call of
    [execute_code] is described by a [SandboxRun], and a run of the judge
    consumes one [SandboxRun] per call from a [World].  The names
    [SUPABASE_URL], [SUPABASE_KEY] and [datetime], which the worker module
    uses without binding them, are taken as given: the store is the [Store]
    argument and the clock reading is the [now] argument.  Where a
    statement is about whether the final update is made at all,
    [judge_submission_run] takes the clock reading as an option, [None]
    being the module as it is, without the import of [datetime]. *)

From Stdlib Require Import ZArith Ascii String DecimalString Lia.
From stdpp Require Import gmap strings list.

Local Open Scope Z_scope.
Local Open Scope string_scope.

(** ** Python string primitives *)

Module PyStr.

(** [str.isspace] on one ASCII character: TAB, LF, VT, FF, CR, the four
    separators FS, GS, RS, US, and the space. *)
Definition isspace (c : ascii) : bool :=
  let n := nat_of_ascii c in
  ((9 <=? n) && (n <=? 13) || (28 <=? n) && (n <=? 32))%nat.

Fixpoint lstrip (s : string) : string :=
  match s with
  | EmptyString => EmptyString
  | String c r => if isspace c then lstrip r else s
  end.

Fixpoint rstrip (s : string) : string :=
  match s with
  | EmptyString => EmptyString
  | String c r =>
      match rstrip r with
      | EmptyString => if isspace c then EmptyString else String c EmptyString
      | r' => String c r'
      end
  end.

(** [s.strip()] *)
Definition strip (s : string) : string := rstrip (lstrip s).

Definition map_chars (f : ascii -> ascii) : string -> string :=
  fix go (s : string) : string :=
    match s with
    | EmptyString => EmptyString
    | String c r => String (f c) (go r)
    end.

Definition upper_char (c : ascii) : ascii :=
  let n := nat_of_ascii c in
  if ((97 <=? n) && (n <=? 122))%nat then ascii_of_nat (n - 32) else c.

Definition lower_char (c : ascii) : ascii :=
  let n := nat_of_ascii c in
  if ((65 <=? n) && (n <=? 90))%nat then ascii_of_nat (n + 32) else c.

(** [s.upper()] and [s.lower()] *)
Definition upper : string -> string := map_chars upper_char.
Definition lower : string -> string := map_chars lower_char.

(** [needle in s] *)
Fixpoint contains (needle s : string) : bool :=
  String.prefix needle s
  || match s with
     | EmptyString => false
     | String _ r => contains needle r
     end.

(** Truthiness of an optional string: [None] and the empty string are
    false. *)
Definition truthy (o : option string) : bool :=
  match o with
  | Some (String _ _) => true
  | _ => false
  end.

End PyStr.

(** ** [json.dumps] on a dictionary of strings *)

Module Json.

Definition quote : ascii := ascii_of_nat 34.
Definition backslash : ascii := ascii_of_nat 92.

Definition hex_digit (n : nat) : ascii :=
  if (n <? 10)%nat then ascii_of_nat (48 + n) else ascii_of_nat (87 + n).

(** One character of a string literal, with [ensure_ascii] on: the
    quote, the backslash and everything outside [' ' .. '~'] are
    escaped. *)
Definition escape_char (c : ascii) : string :=
  let n := nat_of_ascii c in
  let esc (x : string) := String backslash x in
  if (n =? 34)%nat then esc (String quote EmptyString)
  else if (n =? 92)%nat then esc (String backslash EmptyString)
  else if (n =? 10)%nat then esc "n"
  else if (n =? 13)%nat then esc "r"
  else if (n =? 9)%nat then esc "t"
  else if (n =? 12)%nat then esc "f"
  else if (n =? 8)%nat then esc "b"
  else if ((32 <=? n) && (n <=? 126))%nat then String c EmptyString
  else esc ("u00" +:+ String (hex_digit (n / 16)) (String (hex_digit (n mod 16)) EmptyString)).

Fixpoint escape (s : string) : string :=
  match s with
  | EmptyString => EmptyString
  | String c r => escape_char c +:+ escape r
  end.

Definition str (s : string) : string :=
  String quote (escape s +:+ String quote EmptyString).

Definition item (kv : string * string) : string :=
  str kv.1 +:+ ": " +:+ str kv.2.

Fixpoint items (l : list (string * string)) : string :=
  match l with
  | [] => EmptyString
  | [kv] => item kv
  | kv :: rest => item kv +:+ ", " +:+ items rest
  end.

(** [json.dumps(d)] for a dict [d] of string values, keys in insertion
    order. *)
Definition dumps (d : list (string * string)) : string :=
  "{" +:+ items d +:+ "}".

End Json.

(** ** Verdicts *)

(** The verdict strings of the system: the two non-terminal states of a
    submission row, the six terminal ones, and [SUCCESS], which only
    [execute_code] produces. *)
Inductive Verdict :=
  PENDING | JUDGING | AC | WA | TLE | MLE | RE | CE | SUCCESS.

#[global] Instance Verdict_eq_dec : EqDecision Verdict.
Proof. solve_decision. Defined.

Definition is_terminal (v : Verdict) : bool :=
  match v with
  | AC | WA | TLE | MLE | RE | CE => true
  | PENDING | JUDGING | SUCCESS => false
  end.

(** ** The sandbox as seen from [execute_code] *)

(** An exception reaching a handler of [execute_code], an instance of
    [Exception]: the handlers only tell [docker.errors.APIError] from the
    rest, and only read [str(e)]. *)
Inductive Raised :=
| APIError (msg : string)
| OtherException (msg : string).

Definition exc_str (e : Raised) : string :=
  match e with
  | APIError msg | OtherException msg => msg
  end.

(** What the run container reports when the statements of the inner [try]
    all succeed. *)
Record RunData := {
  StatusCode : Z;            (* result["StatusCode"] *)
  elapsed_ms : Z;            (* int((time.time() - start_time) * 1000) *)
  stdout : string;           (* logs(stdout=True, stderr=False) *)
  stderr : string;           (* logs(stdout=False, stderr=True) *)
  usage : option Z           (* stats['memory_stats'].get('usage') *)
}.

(** The behaviour of the environment during one call of [execute_code],
    one field per place where the call touches it.  Leaving the [with]
    block, which removes the temporary directory, is taken to succeed. *)
Record SandboxRun := {
  (* the temporary directory and the two files; [Some e]: raised [e] *)
  files : option Raised;
  (* the compile container: raised, or (StatusCode, logs) *)
  compile : Raised + (Z * string);
  (* [containers.run] of the run command *)
  launch : option Raised;
  (* the inner [try] block, from [wait] to [remove] *)
  wait : Raised + RunData;
  (* [kill] and [remove] in the timeout handler *)
  cleanup : option Raised
}.

(** ** [CodeExecutor] *)

Record LanguageConfig := {
  image : string;
  compile_cmd : option (list string);
  run_cmd : list string;
  file_ext : string;
  timeout : Z
}.

Definition language_configs : gmap string LanguageConfig :=
  <[ "c" := {| image := "gcc:11-alpine";
               compile_cmd := Some ["gcc"; "-o"; "/tmp/solution"; "/tmp/solution.c"; "-std=c11"; "-O2"];
               run_cmd := ["/tmp/solution"];
               file_ext := ".c";
               timeout := 10 |} ]>
  (<[ "python" := {| image := "python:3.11-alpine";
                     compile_cmd := None;
                     run_cmd := ["python3"; "/tmp/solution.py"];
                     file_ext := ".py";
                     timeout := 10 |} ]>
  (<[ "javascript" := {| image := "node:20-alpine";
                         compile_cmd := None;
                         run_cmd := ["node"; "/tmp/solution.js"];
                         file_ext := ".js";
                         timeout := 10 |} ]> ∅)).

(** [if config["compile_cmd"]:] *)
Definition has_compile_step (config : LanguageConfig) : bool :=
  match compile_cmd config with
  | Some (_ :: _) => true
  | _ => false
  end.

(** The dictionary [execute_code] returns; a key that a branch leaves out
    is [None]. *)
Record ExecResult := {
  r_verdict : Verdict;
  r_output : option string;
  r_error : option string;
  r_execution_time : option Z;
  r_memory_used : option Z
}.

(** Exceptions as the code has them: a computation either raises or
    returns. *)
Definition Exc (A : Type) : Type := Raised + A.

Definition try_ {A : Type} (body : Exc A) (handler : Raised -> Exc A) : Exc A :=
  match body with
  | inl e => handler e
  | inr a => inr a
  end.

(** A statement that may raise, followed by the rest of the block. *)
Definition guard {A : Type} (step : option Raised) (rest : Exc A) : Exc A :=
  match step with
  | Some e => inl e
  | None => rest
  end.

(** Line 153: [except Exception as e]. *)
Definition on_exception (e : Raised) : ExecResult :=
  {| r_verdict := RE; r_output := None; r_error := Some (exc_str e);
     r_execution_time := Some 0; r_memory_used := Some 0 |}.

Section execute_code.

Variables (time_limit memory_limit : Z) (w : SandboxRun).

(** Lines 117-143: the run container has exited. *)
Definition classify (d : RunData) : ExecResult :=
  let execution_time := elapsed_ms d in
  let memory_used := default 0 (usage d) `div` 1024 in
  if bool_decide (StatusCode d ≠ 0) then
    if bool_decide (execution_time >= time_limit) then
      {| r_verdict := TLE; r_output := None; r_error := None;
         r_execution_time := Some execution_time; r_memory_used := Some memory_used |}
    else
      {| r_verdict := RE; r_output := None; r_error := Some (stderr d);
         r_execution_time := Some execution_time; r_memory_used := Some memory_used |}
  else if bool_decide (memory_used > memory_limit * 1024) then
    {| r_verdict := MLE; r_output := None; r_error := None;
       r_execution_time := Some execution_time; r_memory_used := Some memory_used |}
  else
    {| r_verdict := SUCCESS; r_output := Some (PyStr.strip (stdout d)); r_error := None;
       r_execution_time := Some execution_time; r_memory_used := Some memory_used |}.

(** Lines 145-150: [except docker.errors.APIError as e]. *)
Definition on_api_error (e : Raised) : Exc ExecResult :=
  match e with
  | APIError msg =>
      if PyStr.contains "timeout" (PyStr.lower msg) then
        guard (cleanup w)
          (inr {| r_verdict := TLE; r_output := None; r_error := None;
                  r_execution_time := Some time_limit; r_memory_used := Some 0 |})
      else inl e
  | OtherException _ => inl e
  end.

(** Lines 108-150: the execution step. *)
Definition run_step : Exc ExecResult :=
  guard (launch w)
    (try_ (match wait w with
           | inl e => inl e
           | inr d => inr (classify d)
           end)
          on_api_error).

(** Lines 89-106: the compilation step, then the execution step. *)
Definition compile_then_run (config : LanguageConfig) : Exc ExecResult :=
  if has_compile_step config then
    match compile w with
    | inl e => inl e
    | inr (status, compile_logs) =>
        if bool_decide (status ≠ 0) then
          inr {| r_verdict := CE; r_output := None; r_error := Some compile_logs;
                 r_execution_time := Some 0; r_memory_used := Some 0 |}
        else run_step
    end
  else run_step.

(** Lines 47-150: the body of the outer [try]. *)
Definition execute_body (config : LanguageConfig) : Exc ExecResult :=
  guard (files w) (compile_then_run config).

(** Line 153: [except Exception as e]. *)
End execute_code.

(** [CodeExecutor.execute_code]; [code] and [test_input] go into the files
    the container reads, so the result depends on them through [w] only. *)
Definition execute_code (language code test_input : string)
    (time_limit memory_limit : Z) (w : SandboxRun) : ExecResult :=
  match language_configs !! language with
  | None =>
      {| r_verdict := CE; r_output := None; r_error := Some "Unsupported language";
         r_execution_time := None; r_memory_used := None |}
  | Some config =>
      match execute_body time_limit memory_limit w config with
      | inl e => on_exception e
      | inr result => result
      end
  end.

(** [result.get(key, 0)] and [result["output"]] *)
Definition get_execution_time (r : ExecResult) : Z := default 0 (r_execution_time r).
Definition get_memory_used (r : ExecResult) : Z := default 0 (r_memory_used r).
Definition get_error (r : ExecResult) : string := default EmptyString (r_error r).
Definition get_output (r : ExecResult) : string := default EmptyString (r_output r).

(** ** [run_dynamic_checker] *)

Definition run_dynamic_checker (checker_code checker_language user_output
    expected_output test_input : string) (w : SandboxRun) : bool * string :=
  let checker_input :=
    Json.dumps [("input", test_input); ("expected", expected_output);
                ("actual", user_output)] in
  let result := execute_code checker_language checker_code checker_input 5000 64 w in
  if bool_decide (r_verdict result ≠ SUCCESS) then
    (false, "Checker execution failed")
  else
    let checker_output := PyStr.upper (PyStr.strip (get_output result)) in
    (bool_decide (checker_output = "ACCEPT"), get_output result).

(** ** The store *)

Record TestCase := {
  input : string;
  expected_output : string;
  hidden : bool
}.

(** A row of [problems], with the columns the judge reads. *)
Record Problem := {
  test_cases : list TestCase;
  p_time_limit : Z;
  p_memory_limit : Z;
  checker_code : option string;
  checker_language : option string
}.

(** The last key of a per-test dictionary is ["error"] on the failure
    path and ["checker_message"] on the comparison path. *)
Inductive Detail :=
| Error (msg : string)
| CheckerMessage (msg : string).

(** One entry of [results]. *)
Record TestRecord := {
  test_case : Z;
  t_verdict : Verdict;
  t_execution_time : Z;
  t_memory_used : Z;
  t_detail : Detail
}.

(** A row of [submissions]; the columns the API does not set at insertion
    are null until the judge writes them. *)
Record Submission := {
  s_problem_id : Z;
  s_user_id : string;
  s_language : string;
  s_code : string;
  s_verdict : Verdict;
  s_execution_time : option Z;
  s_memory_used : option Z;
  s_test_cases_passed : option Z;
  s_total_test_cases : option Z;
  s_judge_output : option (list TestRecord);
  s_judged_at : option string
}.

Record Store := {
  submissions : gmap Z Submission;
  problems : gmap Z Problem
}.

(** The queue message, [submission_data]. *)
Record Job := {
  submission_id : Z;
  problem_id : Z;
  j_language : string;
  j_code : string
}.

(** [table("submissions").update(...).eq("id", id).execute()]: the rows
    whose id matches are changed, there is at most one. *)
Definition update_submission (f : Submission -> Submission) (id : Z) (db : Store) : Store :=
  {| submissions := alter f id (submissions db); problems := problems db |}.

Definition set_verdict (v : Verdict) (s : Submission) : Submission :=
  {| s_problem_id := s_problem_id s; s_user_id := s_user_id s;
     s_language := s_language s; s_code := s_code s;
     s_verdict := v;
     s_execution_time := s_execution_time s; s_memory_used := s_memory_used s;
     s_test_cases_passed := s_test_cases_passed s;
     s_total_test_cases := s_total_test_cases s;
     s_judge_output := s_judge_output s; s_judged_at := s_judged_at s |}.

(** [update_data] *)
Record UpdateData := {
  u_verdict : Verdict;
  u_execution_time : Z;
  u_memory_used : Z;
  u_test_cases_passed : Z;
  u_total_test_cases : Z;
  u_judge_output : list TestRecord;
  u_judged_at : string
}.

Definition apply_update (u : UpdateData) (s : Submission) : Submission :=
  {| s_problem_id := s_problem_id s; s_user_id := s_user_id s;
     s_language := s_language s; s_code := s_code s;
     s_verdict := u_verdict u;
     s_execution_time := Some (u_execution_time u);
     s_memory_used := Some (u_memory_used u);
     s_test_cases_passed := Some (u_test_cases_passed u);
     s_total_test_cases := Some (u_total_test_cases u);
     s_judge_output := Some (u_judge_output u);
     s_judged_at := Some (u_judged_at u) |}.

(** ** Running against the environment *)

(** The environment of a judging run: the behaviour of the sandbox at the
    next call of [execute_code], the one after, and so on. *)
Definition World : Type := nat -> SandboxRun.

(** A computation that calls the sandbox. *)
Definition M (A : Type) : Type := World -> A * World.

#[global] Instance M_ret : MRet M := fun A a w => (a, w).
#[global] Instance M_bind : MBind M :=
  fun A B f m w => let '(a, w') := m w in f a w'.

(** One call issued to the sandbox. *)
Definition call {A : Type} (f : SandboxRun -> A) : M A :=
  fun w => (f (w 0%nat), fun n => w (S n)).

(** ** [judge_submission] *)

(** The variables the loop assigns. *)
Record LoopState := {
  results : list TestRecord;
  passed_count : Z;
  max_time : Z;
  max_memory : Z
}.

(** Lines 218-224: the dictionary appended when the execution fails. *)
Definition failed_test (i : Z) (result : ExecResult) : TestRecord :=
  {| test_case := i + 1;
     t_verdict := r_verdict result;
     t_execution_time := get_execution_time result;
     t_memory_used := get_memory_used result;
     t_detail := Error (get_error result) |}.

(** Lines 247-253: the dictionary appended after the output check. *)
Definition checked_test (i : Z) (verdict : Verdict) (result : ExecResult)
    (checker_msg : string) : TestRecord :=
  {| test_case := i + 1;
     t_verdict := verdict;
     t_execution_time := get_execution_time result;
     t_memory_used := get_memory_used result;
     t_detail := CheckerMessage checker_msg |}.

(** Line 231: [if checker_code and checker_language:] *)
Definition has_checker (problem_data : Problem) : bool :=
  PyStr.truthy (checker_code problem_data) && PyStr.truthy (checker_language problem_data).

Section judge.

Variables (language code : string).
Variable problem_data : Problem.

(** Lines 231-239: the output check. *)
Definition check_output (user_output expected_output test_input : string) : M (bool * string) :=
  if has_checker problem_data then
    call (run_dynamic_checker
            (default EmptyString (checker_code problem_data))
            (default EmptyString (checker_language problem_data))
            user_output expected_output test_input)
  else
    mret (bool_decide (PyStr.strip user_output = PyStr.strip expected_output),
          EmptyString).

(** Lines 208-256: one iteration on test case number [i]; the boolean
    tells whether the loop goes on ([false] is a [break]). *)
Definition loop_body (i : Z) (tc : TestCase) (st : LoopState) : M (LoopState * bool) :=
  let test_input := input tc in
  let expected_output := expected_output tc in
  result ← call (execute_code language code test_input
                   (p_time_limit problem_data) (p_memory_limit problem_data));
  let max_time := Z.max (max_time st) (get_execution_time result) in
  let max_memory := Z.max (max_memory st) (get_memory_used result) in
  if bool_decide (r_verdict result ≠ SUCCESS) then
    mret ({| results := results st ++ [failed_test i result];
             passed_count := passed_count st;
             max_time := max_time; max_memory := max_memory |}, false)
  else
    let user_output := get_output result in
    '(is_correct, checker_msg) ← check_output user_output expected_output test_input;
    let verdict := if is_correct : bool then AC else WA in
    mret ({| results := results st ++ [checked_test i verdict result checker_msg];
             passed_count := if is_correct then passed_count st + 1 else passed_count st;
             max_time := max_time; max_memory := max_memory |}, is_correct).

(** Lines 207-256: [for i, test_case in enumerate(test_cases)], from
    index [i] on. *)
Fixpoint judge_loop (i : Z) (tcs : list TestCase) (st : LoopState) : M LoopState :=
  match tcs with
  | [] => mret st
  | tc :: rest =>
      '(st', continue) ← loop_body i tc st;
      if continue : bool then judge_loop (i + 1) rest st' else mret st'
  end.

End judge.

(** The variables of the loop after an iteration that appends [r] for the
    execution [result]; [passed] tells whether [passed_count] went up. *)
Definition after (st : LoopState) (result : ExecResult) (r : TestRecord)
    (passed : bool) : LoopState :=
  {| results := (results st ++ [r])%list;
     passed_count := if passed then passed_count st + 1 else passed_count st;
     max_time := Z.max (max_time st) (get_execution_time result);
     max_memory := Z.max (max_memory st) (get_memory_used result) |}.

(** Lines 258-271: the final verdict. *)
Definition final_verdict (passed_count : Z) (test_cases : list TestCase)
    (results : list TestRecord) : Verdict :=
  if bool_decide (passed_count = Z.of_nat (length test_cases)) then AC
  else
    let verdicts := map t_verdict results in
    if bool_decide (TLE ∈ verdicts) then TLE
    else if bool_decide (MLE ∈ verdicts) then MLE
    else if bool_decide (RE ∈ verdicts) then RE
    else WA.

(** Lines 194-282: from the problem row to [update_data]. *)
Definition judge_problem (language code : string) (problem_data : Problem)
    (now : string) : M UpdateData :=
  let test_cases := test_cases problem_data in
  st ← judge_loop language code problem_data 0 test_cases
         {| results := []; passed_count := 0; max_time := 0; max_memory := 0 |};
  mret {| u_verdict := final_verdict (passed_count st) test_cases (results st);
          u_execution_time := max_time st;
          u_memory_used := max_memory st;
          u_test_cases_passed := passed_count st;
          u_total_test_cases := Z.of_nat (length test_cases);
          u_judge_output := results st;
          u_judged_at := now |}.

(** Line 187: the first write. *)
Definition mark_judging (submission_id : Z) (db : Store) : Store :=
  update_submission (set_verdict JUDGING) submission_id db.

(** [judge_submission(submission_data)] on the store [db], the clock
    reading [now] at the end: the states of the store after each of its
    writes, in order (line 187, then line 284 unless the call returns at
    line 192). *)
Definition judge_submission_writes (submission_data : Job) (now : string)
    (db : Store) : M (list Store) :=
  let submission_id := submission_id submission_data in
  let problem_id := problem_id submission_data in
  let language := j_language submission_data in
  let code := j_code submission_data in
  let db := mark_judging submission_id db in
  match problems db !! problem_id with
  | None => mret [db]
  | Some problem_data =>
      update_data ← judge_problem language code problem_data now;
      mret [db; update_submission (apply_update update_data) submission_id db]
  end.

(** The store [judge_submission] leaves behind. *)
Definition judge_submission (submission_data : Job) (now : string) (db : Store) : M Store :=
  writes ← judge_submission_writes submission_data now db;
  mret (List.last writes db).

(** The writes of [judge_submission] when the clock reading of line 281
    may be missing.  [clock] is the value of [datetime.now().isoformat()],
    and [None] stands for the module as it is, which does not import
    [datetime]: line 281 then raises [NameError] after the loop has run,
    and the write of line 284 is not reached. *)
Definition judge_submission_run (submission_data : Job) (clock : option string)
    (db : Store) : M (list Store) :=
  let submission_id := submission_id submission_data in
  let problem_id := problem_id submission_data in
  let language := j_language submission_data in
  let code := j_code submission_data in
  let db := mark_judging submission_id db in
  match problems db !! problem_id with
  | None => mret [db]
  | Some problem_data =>
      match clock with
      | Some now =>
          update_data ← judge_problem language code problem_data now;
          mret [db; update_submission (apply_update update_data) submission_id db]
      | None =>
          _ ← judge_loop language code problem_data 0 (test_cases problem_data)
                {| results := []; passed_count := 0; max_time := 0; max_memory := 0 |};
          mret [db]
      end
  end.

(** ** Vocabulary of the specification *)

Module Spec.

(** Rank in the priority order CE > TLE > MLE > RE > WA; AC and the
    non-terminal verdicts rank below them all. *)
Definition priority (v : Verdict) : nat :=
  match v with
  | CE => 5 | TLE => 4 | MLE => 3 | RE => 2 | WA => 1
  | AC | PENDING | JUDGING | SUCCESS => 0
  end%nat.

(** The worst verdict of a list under [priority]. *)
Definition worst (vs : list Verdict) : Verdict :=
  foldr (fun v acc => if (priority acc <? priority v)%nat then v else acc) AC vs.

(** The first non-whitespace token of a text. *)
Fixpoint token (s : string) : string :=
  match s with
  | EmptyString => EmptyString
  | String c r => if PyStr.isspace c then EmptyString else String c (token r)
  end.

Definition first_token (s : string) : string := token (PyStr.lstrip s).

(** The checker rule of the specification: the first token, upper-cased,
    is ACCEPT. *)
Definition checker_accepts (checker_stdout : string) : bool :=
  bool_decide (PyStr.upper (first_token checker_stdout) = "ACCEPT").

(** Peak memory of at least 95% of a cap of [memory_limit] MB, in KB. *)
Definition near_memory_cap (memory_used memory_limit : Z) : Prop :=
  100 * memory_used >= 95 * (memory_limit * 1024).

(** The result the outer handler builds from an exception. *)
Definition runtime_error (e : Raised) (r : ExecResult) : Prop :=
  r_verdict r = RE ∧ r_error r = Some (exc_str e)
  ∧ r_execution_time r = Some 0 ∧ r_memory_used r = Some 0.

(** An [APIError] whose text mentions a timeout, in any letter case. *)
Definition is_timeout (e : Raised) : bool :=
  match e with
  | APIError msg => PyStr.contains "timeout" (PyStr.lower msg)
  | OtherException _ => false
  end.

(** The compilation step lets the execution step start: there is none,
    or the compile container exits with status 0. *)
Definition compiled (config : LanguageConfig) (w : SandboxRun) : Prop :=
  has_compile_step config = true → ∃ logs, compile w = inr (0, logs).

(** The call gets as far as an exited run container [d]. *)
Definition ran_to_exit (language : string) (w : SandboxRun) (d : RunData) : Prop :=
  ∃ config, language_configs !! language = Some config
    ∧ files w = None ∧ compiled config w ∧ launch w = None ∧ wait w = inr d.

(** The execution of the checker that [run_dynamic_checker] starts for the
    test case [tc] and the output [user_output]. *)
Definition checker_run (problem_data : Problem) (tc : TestCase) (user_output : string)
    (sandbox : SandboxRun) : ExecResult :=
  execute_code (default EmptyString (checker_language problem_data))
    (default EmptyString (checker_code problem_data))
    (Json.dumps [("input", input tc); ("expected", expected_output tc);
                 ("actual", user_output)])
    5000 64 sandbox.

Section per_test.

Variables (language code : string) (problem_data : Problem).

(** The execution of the submission on [tc]. *)
Definition user_run (tc : TestCase) (sandbox : SandboxRun) : ExecResult :=
  execute_code language code (input tc)
    (p_time_limit problem_data) (p_memory_limit problem_data) sandbox.

(** The record the judge is to keep for [tc] when the problem has no
    checker: the verdict of a failed execution, else AC or WA by
    comparison of the stripped texts. *)
Definition compared (tc : TestCase) (sandbox : SandboxRun) (r : TestRecord) : Prop :=
  let result := user_run tc sandbox in
  if decide (r_verdict result = SUCCESS) then
    t_verdict r = (if decide (PyStr.strip (get_output result)
                              = PyStr.strip (expected_output tc))
                   then AC else WA)
  else t_verdict r = r_verdict result.

(** The test case [tc] passes under a checker: the submission runs
    successfully on [user_sandbox] and the checker accepts on
    [checker_sandbox]. *)
Definition checker_passes (tc : TestCase) (user_sandbox checker_sandbox : SandboxRun) : Prop :=
  r_verdict (user_run tc user_sandbox) = SUCCESS
  ∧ (run_dynamic_checker
       (default EmptyString (checker_code problem_data))
       (default EmptyString (checker_language problem_data))
       (get_output (user_run tc user_sandbox)) (expected_output tc) (input tc)
       checker_sandbox).1 = true.

End per_test.

End Spec.

(** ** Sample environments *)

Module Sample.

Definition exited (status elapsed : Z) (out err : string) (mem : option Z) : SandboxRun :=
  {| files := None; compile := inr (0, EmptyString); launch := None;
     wait := inr {| StatusCode := status; elapsed_ms := elapsed;
                    stdout := out; stderr := err; usage := mem |};
     cleanup := None |}.

(** A run killed at the memory cap of 64 MB after 40 ms. *)
Definition oom_killed : SandboxRun :=
  exited 137 40 EmptyString "Killed" (Some (64 * 1024 * 1024)).

(** [wait] gives up with an [APIError] about a timeout. *)
Definition wait_timeout : SandboxRun :=
  {| files := None; compile := inr (0, EmptyString); launch := None;
     wait := inl (APIError "UnixHTTPConnectionPool: Read timed out. (read timeout=1.0)");
     cleanup := None |}.

Definition row (v : Verdict) : Submission :=
  {| s_problem_id := 7; s_user_id := "u1"; s_language := "python";
     s_code := "print(input())"; s_verdict := v;
     s_execution_time := None; s_memory_used := None;
     s_test_cases_passed := None; s_total_test_cases := None;
     s_judge_output := None; s_judged_at := None |}.

Definition echo (checker : option string) : Problem :=
  {| test_cases := [ {| input := "1"; expected_output := "1"; hidden := false |};
                     {| input := "2"; expected_output := "2"; hidden := true |} ];
     p_time_limit := 1000; p_memory_limit := 64;
     checker_code := checker; checker_language := checker |}.

(** A row judged earlier: both tests passed. *)
Definition accepted_row : Submission :=
  {| s_problem_id := 7; s_user_id := "u1"; s_language := "python";
     s_code := "print(input())"; s_verdict := AC;
     s_execution_time := Some 12; s_memory_used := Some 0;
     s_test_cases_passed := Some 2; s_total_test_cases := Some 2;
     s_judge_output :=
       Some [ {| test_case := 1; t_verdict := AC; t_execution_time := 12;
                 t_memory_used := 0; t_detail := CheckerMessage EmptyString |};
              {| test_case := 2; t_verdict := AC; t_execution_time := 12;
                 t_memory_used := 0; t_detail := CheckerMessage EmptyString |} ];
     s_judged_at := Some "2025-01-01T00:00:00" |}.

Definition db (r : Submission) (checker : option string) : Store :=
  {| submissions := {[ 1 := r ]}; problems := {[ 7 := echo checker ]} |}.

(** Two tests whose expected outputs have an inner blank. *)
Definition spaced : Problem :=
  {| test_cases := [ {| input := "1 2"; expected_output := "1 2
"; hidden := false |};
                     {| input := "3 4"; expected_output := "3 4"; hidden := false |} ];
     p_time_limit := 1000; p_memory_limit := 64;
     checker_code := None; checker_language := None |}.

(** The first run prints [1 2] after two blanks, the later ones [3  4]
    with two blanks inside. *)
Definition spaced_world : World :=
  fun n => match n with
           | O => exited 0 12 "  1 2" EmptyString None
           | _ => exited 0 12 "3  4" EmptyString None
           end.

(** The user program and a passing checker alternate twice, then the user
    program runs and the checker crashes. *)
Definition checker_crash_world : World :=
  fun n => match n with
           | 0 | 2 | 4 => exited 0 12 "7" EmptyString None
           | 1 | 3 => exited 0 15 "ACCEPT" EmptyString None
           | _ => exited 1 15 EmptyString "Traceback" None
           end%nat.

(** Three tests judged by a checker. *)
Definition checked : Problem :=
  {| test_cases := [ {| input := "3 4"; expected_output := "7"; hidden := false |};
                     {| input := "5 2"; expected_output := "7"; hidden := false |};
                     {| input := "6 1"; expected_output := "7"; hidden := true |} ];
     p_time_limit := 1000; p_memory_limit := 64;
     checker_code := Some "print('ACCEPT')"; checker_language := Some "python" |}.

Definition job (language : string) (problem : Z) : Job :=
  {| submission_id := 1; problem_id := problem;
     j_language := language; j_code := "print(input())" |}.

End Sample.

(** ** The queue, the worker loop and the submission endpoints *)

(** The Redis list [judge_queue], its left end first. *)
Definition lpush (x : string) (q : list string) : list string := x :: q.

(** [brpop("judge_queue", timeout=1)] with no producer at work: the right
    end of the list, or [None] when the list stays empty for the second. *)
Definition brpop (q : list string) : option (list string * string) :=
  match last q with
  | None => None
  | Some payload => Some (removelast q, payload)
  end.

(** The database and the queue together. *)
Record System := {
  store : Store;
  judge_queue : list string
}.

Module Wire.

(** [json.dumps] of an [int]. *)
Definition int (z : Z) : string := NilZero.string_of_int (Z.to_int z).

(** [json.dumps(job_data)], lines 120-127 of [main.py]. *)
Definition dumps_job (j : Job) : string :=
  "{" +:+ Json.str "submission_id" +:+ ": " +:+ int (submission_id j)
  +:+ ", " +:+ Json.str "problem_id" +:+ ": " +:+ int (problem_id j)
  +:+ ", " +:+ Json.str "language" +:+ ": " +:+ Json.str (j_language j)
  +:+ ", " +:+ Json.str "code" +:+ ": " +:+ Json.str (j_code j) +:+ "}".

End Wire.

(** What the worker makes of a queue message: [json.loads] followed by
    the reads of the four keys, [None] when one of them raises. *)
Definition Decoder : Type := string -> option Job.

(** Lines 290-300 of [executor.py]: one iteration of the loop of [main],
    the clock reading [now] at the end of the judging. *)
Definition main_iteration (loads : Decoder) (now : string) (sys : System) : M System :=
  match brpop (judge_queue sys) with
  | None => mret sys
  | Some (rest, payload) =>
      match loads payload with
      | None =>
          (* except Exception: the error is printed, the worker sleeps *)
          mret {| store := store sys; judge_queue := rest |}
      | Some submission_data =>
          db ← judge_submission submission_data now (store sys);
          mret {| store := db; judge_queue := rest |}
      end
  end.

(** The first [n] iterations of [while True:] in [main]; [clock k] is the
    clock reading in iteration [k]. *)
Fixpoint main (loads : Decoder) (clock : nat -> string) (n : nat) (sys : System) : M System :=
  match n with
  | O => mret sys
  | S n' =>
      sys' ← main_iteration loads (clock 0%nat) sys;
      main loads (fun k => clock (S k)) n' sys'
  end.

(** [SubmissionCreate] *)
Record SubmissionCreate := {
  sc_problem_id : Z;
  sc_language : string;
  sc_code : string
}.

(** An endpoint returns, or raises [HTTPException]. *)
Inductive Response (A : Type) :=
| Ok (body : A)
| HTTPException (status_code : Z) (detail : string).

Arguments Ok {A} body.
Arguments HTTPException {A} status_code detail.

(** [submit_solution], lines 100-129 of [main.py], for the authenticated
    user [user_id]; [new_id] is the id the database gives the new row. *)
Definition submit_solution (submission : SubmissionCreate) (user_id : string)
    (new_id : Z) (sys : System) : Response (Z * string) * System :=
  match problems (store sys) !! sc_problem_id submission with
  | None => (HTTPException 404 "Problem not found", sys)
  | Some _ =>
      let submission_data :=
        {| s_problem_id := sc_problem_id submission; s_user_id := user_id;
           s_language := sc_language submission; s_code := sc_code submission;
           s_verdict := PENDING;
           s_execution_time := None; s_memory_used := None;
           s_test_cases_passed := None; s_total_test_cases := None;
           s_judge_output := None; s_judged_at := None |} in
      let db := {| submissions := <[new_id := submission_data]> (submissions (store sys));
                   problems := problems (store sys) |} in
      let submission_id := new_id in
      let job_data :=
        {| submission_id := submission_id; problem_id := sc_problem_id submission;
           j_language := sc_language submission; j_code := sc_code submission |} in
      (Ok (submission_id, "queued"),
       {| store := db; judge_queue := lpush (Wire.dumps_job job_data) (judge_queue sys) |})
  end.

(** [get_submission], lines 131-144 of [main.py]; [profiles] is the column
    [role] of the table [profiles], by user id. *)
Definition get_submission (profiles : gmap string string) (submission_id : Z)
    (user_id : string) (db : Store) : Response Submission :=
  match submissions db !! submission_id with
  | None => HTTPException 404 "Submission not found"
  | Some submission =>
      let is_admin :=
        match profiles !! user_id with
        | Some role => bool_decide (role = "admin")
        | None => false
        end in
      if bool_decide (s_user_id submission ≠ user_id) && negb is_admin
      then HTTPException 403 "Access denied"
      else Ok submission
  end.

(** The number of calls of [execute_code] behind a list of per-test
    records: one for the submission, and one more for the checker when the
    record comes from the output check of a problem with a checker. *)
Definition sandbox_calls (problem_data : Problem) (out : list TestRecord) : nat :=
  foldr (fun r n =>
           (match t_detail r with
            | CheckerMessage _ => if has_checker problem_data then 2 else 1
            | Error _ => 1
            end + n)%nat) 0%nat out.

(** The columns of a submission row that the API sets at insertion and
    the judge never writes. *)
Definition identity_columns (s : Submission) : Z * string * string * string :=
  (s_problem_id s, s_user_id s, s_language s, s_code s).


(** ** More sample data *)

Module Demo.

(** A run that exits with status 0 after five seconds. *)
Definition slow_success : SandboxRun :=
  Sample.exited 0 5000 "1" EmptyString (Some 4096).

(** The compiler rejects the program. *)
Definition compile_failure : SandboxRun :=
  {| files := None; compile := inr (1, "solution.c:1: error: expected ';'");
     launch := Some (OtherException "never started");
     wait := inl (OtherException "never started"); cleanup := None |}.

(** A problem without test cases. *)
Definition untested : Problem :=
  {| test_cases := []; p_time_limit := 1000; p_memory_limit := 64;
     checker_code := None; checker_language := None |}.

(** A decoder that knows one message. *)
Definition loads_only (j : Job) : Decoder :=
  fun payload => if bool_decide (payload = Wire.dumps_job j) then Some j else None.

Definition submission : SubmissionCreate :=
  {| sc_problem_id := 7; sc_language := "python"; sc_code := "print(input())" |}.

(** One row, one problem, and a queue holding a message that is not JSON. *)
Definition system : System :=
  {| store := Sample.db (Sample.row PENDING) None; judge_queue := ["not json"] |}.

Definition profiles : gmap string string :=
  {[ "root" := "admin"; "u1" := "user"; "u2" := "user" ]}.

End Demo.

(** ** The executor *)

Lemma language_configs_known language config :
  language_configs !! language = Some config →
  language = "c" ∨ language = "python" ∨ language = "javascript".
Proof.
  unfold language_configs. intros H.
  destruct (decide (language = "c")) as [|n1]; [auto|].
  destruct (decide (language = "python")) as [|n2]; [auto|].
  destruct (decide (language = "javascript")) as [|n3]; [auto|].
  rewrite !lookup_insert_ne in H by done. by rewrite lookup_empty in H.
Qed.

Ltac exec_unfold :=
  unfold execute_code, execute_body, compile_then_run, run_step,
    on_api_error, on_exception, classify in *;
  unfold try_, guard in *.

Lemma execute_code_verdict language code test_input time_limit memory_limit w :
  r_verdict (execute_code language code test_input time_limit memory_limit w)
    ∈ [CE; TLE; MLE; RE; SUCCESS].
Proof.
  exec_unfold.
  repeat (case_match; simplify_eq; simpl; try by repeat constructor).
Qed.

(** A SUCCESS result carries its output and both measurements, so the
    reads [result["output"]], [result["execution_time"]] and
    [result["memory_used"]] of the judge find their key. *)
Lemma execute_code_success_keys language code test_input time_limit memory_limit w :
  let r := execute_code language code test_input time_limit memory_limit w in
  r_verdict r = SUCCESS →
  is_Some (r_output r) ∧ is_Some (r_execution_time r) ∧ is_Some (r_memory_used r).
Proof.
  exec_unfold.
  repeat (case_match; simplify_eq; simpl; try done); eauto.
Qed.

(** A SUCCESS result comes from an exited run container, with exit status
    0, and its output is the stripped standard output. *)
Lemma execute_code_success_inv language code test_input time_limit memory_limit w :
  let r := execute_code language code test_input time_limit memory_limit w in
  r_verdict r = SUCCESS →
  ∃ d, Spec.ran_to_exit language w d ∧ StatusCode d = 0
       ∧ r_output r = Some (PyStr.strip (stdout d)).
Proof.
  unfold Spec.ran_to_exit, Spec.compiled. exec_unfold.
  repeat (case_match; simplify_eq; simpl; try done); intros _.
  all: eexists; (split; [eexists; split; [done|]; split; [done|]; split; [|done] |]).
  all: try (split; [|done]).
  all: try (intros ?; eexists; f_equal; f_equal;
            match goal with H : bool_decide _ = false |- _ =>
              apply bool_decide_eq_false in H; by apply dec_stable in H end).
  all: try (intros ?; congruence).
  all: match goal with H : bool_decide (StatusCode _ ≠ 0) = false |- _ =>
         apply bool_decide_eq_false in H; by apply dec_stable in H end.
Qed.

(** What [execute_code] returns once the run container has exited. *)
Lemma execute_code_exited language code test_input time_limit memory_limit w d :
  Spec.ran_to_exit language w d →
  execute_code language code test_input time_limit memory_limit w
  = classify time_limit memory_limit d.
Proof.
  intros (config & Hc & Hf & Hcomp & Hl & Hw).
  unfold execute_code, execute_body, compile_then_run, run_step, guard, try_.
  rewrite Hc, Hf, Hl, Hw.
  destruct (has_compile_step config) eqn:Hs; [|done].
  destruct (Hcomp Hs) as [logs Hlogs]. by rewrite Hlogs.
Qed.

Lemma compile_then_run_compiled time_limit memory_limit w config :
  Spec.compiled config w →
  compile_then_run time_limit memory_limit w config = run_step time_limit memory_limit w.
Proof.
  intros Hcomp. unfold compile_then_run.
  destruct (has_compile_step config) eqn:Hs; [|done].
  destruct (Hcomp Hs) as [logs Hlogs]. by rewrite Hlogs.
Qed.

(** C10 (as amended): [execute_code] always returns a result whose verdict
    is CE, TLE, MLE, RE or SUCCESS, and it catches every exception raised
    inside it.  An exception becomes RE with [str(e)], time 0 and memory
    0, with one exception by design: an [APIError] about a timeout raised
    in the block that waits for the run container is answered by killing
    and removing the container and becomes TLE with the time limit as
    execution time and memory 0 (RE again if the kill or the removal
    raises). *)
Theorem execute_code_total_and_catches language code test_input time_limit memory_limit w :
  let r := execute_code language code test_input time_limit memory_limit w in
  r_verdict r ∈ [CE; TLE; MLE; RE; SUCCESS]
  ∧ ∀ config, language_configs !! language = Some config →
      (∀ e, files w = Some e → Spec.runtime_error e r)
      ∧ (files w = None →
           (∀ e, has_compile_step config = true → compile w = inl e →
                 Spec.runtime_error e r)
           ∧ (Spec.compiled config w →
                (∀ e, launch w = Some e → Spec.runtime_error e r)
                ∧ (launch w = None → ∀ e, wait w = inl e →
                     if Spec.is_timeout e then
                       match cleanup w with
                       | Some e' => Spec.runtime_error e' r
                       | None =>
                           r = {| r_verdict := TLE; r_output := None; r_error := None;
                                  r_execution_time := Some time_limit;
                                  r_memory_used := Some 0 |}
                       end
                     else Spec.runtime_error e r))).
Proof.
  intros r. split; [apply execute_code_verdict|].
  intros config Hc. subst r.
  unfold execute_code, execute_body. rewrite Hc.
  split.
  { intros e ->. by cbn. }
  intros ->. cbn [guard]. split.
  { intros e Hs He. unfold compile_then_run. rewrite Hs, He. by cbn. }
  intros Hcomp. rewrite compile_then_run_compiled by done.
  unfold run_step. split.
  { intros e ->. by cbn. }
  intros -> e ->. cbn [guard try_].
  destruct e as [msg|msg]; cbn [on_api_error Spec.is_timeout]; [|by cbn].
  destruct (PyStr.contains "timeout" (PyStr.lower msg)); [|by cbn].
  destruct (cleanup w); by cbn.
Qed.

(** An instance of [execute_code_total_and_catches]: the timeout handler,
    on [Sample.wait_timeout]. *)
Lemma execute_code_total_and_catches_witness :
  execute_code "python" "pass" "1" 1000 64 Sample.wait_timeout
  = {| r_verdict := TLE; r_output := None; r_error := None;
       r_execution_time := Some 1000; r_memory_used := Some 0 |}.
Proof.
  pose proof (execute_code_total_and_catches "python" "pass" "1" 1000 64
                Sample.wait_timeout) as [_ H].
  edestruct (H _ ltac:(vm_compute; reflexivity)) as [_ H1].
  destruct (H1 eq_refl) as [_ H2].
  destruct (H2 ltac:(intros Hs; vm_compute in Hs; discriminate)) as [_ H3].
  exact (H3 eq_refl _ eq_refl).
Defined.

(** C10 (as stated) fails: an exception raised while waiting for the run
    container is answered with TLE and the time limit, not with RE and
    time 0. *)
Lemma execute_code_exception_not_RE :
  wait Sample.wait_timeout
    = inl (APIError "UnixHTTPConnectionPool: Read timed out. (read timeout=1.0)")
  ∧ r_verdict (execute_code "python" "pass" "1" 1000 64 Sample.wait_timeout) = TLE
  ∧ r_verdict (execute_code "python" "pass" "1" 1000 64 Sample.wait_timeout) ≠ RE
  ∧ r_execution_time (execute_code "python" "pass" "1" 1000 64 Sample.wait_timeout)
    = Some 1000.
Proof. vm_compute. repeat split; discriminate. Qed.

(** C8 (as amended): when the run container exits with a non-zero status,
    [execute_code] answers TLE if the measured time reaches the time limit
    and RE otherwise, whatever the memory reading; it answers MLE exactly
    when the exit status is 0 and the memory reading exceeds the cap. *)
Theorem nonzero_exit_is_TLE_or_RE language code test_input time_limit memory_limit w d :
  Spec.ran_to_exit language w d →
  let r := execute_code language code test_input time_limit memory_limit w in
  (StatusCode d ≠ 0 →
     r_verdict r = if bool_decide (elapsed_ms d >= time_limit) then TLE else RE)
  ∧ (r_verdict r = MLE ↔
       StatusCode d = 0 ∧ default 0 (usage d) `div` 1024 > memory_limit * 1024).
Proof.
  intros Hrun r. subst r. rewrite (execute_code_exited _ _ _ _ _ _ _ Hrun).
  unfold classify. split.
  - intros Hs. rewrite bool_decide_eq_true_2 by done. by case_bool_decide.
  - repeat case_bool_decide; simpl; split; try done; tauto.
Qed.

(** An instance of [nonzero_exit_is_TLE_or_RE]: the run killed at the
    memory cap. *)
Lemma nonzero_exit_is_TLE_or_RE_witness :
  r_verdict (execute_code "python" "x = [0] * 10**9" "1" 1000 64 Sample.oom_killed) = RE.
Proof.
  assert (Spec.ran_to_exit "python" Sample.oom_killed
            {| StatusCode := 137; elapsed_ms := 40; stdout := EmptyString;
               stderr := "Killed"; usage := Some (64 * 1024 * 1024) |}) as Hran.
  { eexists. split; [vm_compute; reflexivity|].
    split; [reflexivity|]. split; [|split; reflexivity].
    intros Hs. vm_compute in Hs. discriminate. }
  pose proof (nonzero_exit_is_TLE_or_RE "python" "x = [0] * 10**9" "1" 1000 64
                _ _ Hran) as [H _].
  exact (H ltac:(discriminate)).
Defined.

(** C8 (as stated) fails: a non-zero exit with the memory reading at 100%
    of the cap is classified RE. *)
Lemma oom_kill_is_RE_not_MLE :
  Spec.near_memory_cap (64 * 1024 * 1024 `div` 1024) 64
  ∧ r_verdict (execute_code "python" "x = [0] * 10**9" "1" 1000 64 Sample.oom_killed) = RE
  ∧ r_verdict (execute_code "python" "x = [0] * 10**9" "1" 1000 64 Sample.oom_killed) ≠ MLE.
Proof. unfold Spec.near_memory_cap. vm_compute. repeat split; discriminate. Qed.

(** ** The string primitives *)

Lemma rstrip_idemp s : PyStr.rstrip (PyStr.rstrip s) = PyStr.rstrip s.
Proof.
  induction s as [|c r IH]; [done|].
  cbn [PyStr.rstrip].
  destruct (PyStr.rstrip r) as [|c' r'] eqn:Hr.
  - destruct (PyStr.isspace c) eqn:Hc; [done|]. cbn. by rewrite Hc.
  - cbn [PyStr.rstrip]. fold PyStr.rstrip.
    change (PyStr.rstrip (String c' r')) with
      (match PyStr.rstrip r' with
       | EmptyString => if PyStr.isspace c' then EmptyString else String c' EmptyString
       | x => String c' x
       end) in IH.
    by rewrite IH.
Qed.

(** A text with no leading blank keeps its first character under
    [rstrip]. *)
Lemma lstrip_rstrip_lstrip s :
  PyStr.lstrip (PyStr.rstrip (PyStr.lstrip s)) = PyStr.rstrip (PyStr.lstrip s).
Proof.
  induction s as [|c r IH]; [done|].
  cbn [PyStr.lstrip]. destruct (PyStr.isspace c) eqn:Hc; [done|].
  cbn [PyStr.rstrip]. rewrite Hc.
  destruct (PyStr.rstrip r); cbn [PyStr.lstrip]; by rewrite Hc.
Qed.

Lemma strip_idemp s : PyStr.strip (PyStr.strip s) = PyStr.strip s.
Proof.
  unfold PyStr.strip. by rewrite lstrip_rstrip_lstrip, rstrip_idemp.
Qed.

(** ** The checker runner *)

(** C6 (as amended): when the checker runs successfully, it accepts
    exactly when its whole standard output, stripped of leading and
    trailing whitespace and upper-cased, is ACCEPT; the message returned
    is the standard output stripped of leading and trailing whitespace. *)
Theorem checker_compares_whole_output checker_code checker_language user_output
    expected_output test_input w :
  r_verdict (execute_code checker_language checker_code
               (Json.dumps [("input", test_input); ("expected", expected_output);
                            ("actual", user_output)]) 5000 64 w) = SUCCESS →
  ∃ d, Spec.ran_to_exit checker_language w d
    ∧ run_dynamic_checker checker_code checker_language user_output
        expected_output test_input w
      = (bool_decide (PyStr.upper (PyStr.strip (stdout d)) = "ACCEPT"),
         PyStr.strip (stdout d)).
Proof.
  intros Hs.
  destruct (execute_code_success_inv _ _ _ _ _ _ Hs) as (d & Hran & _ & Hout).
  exists d. split; [done|].
  unfold run_dynamic_checker, get_output. rewrite Hs, Hout. simpl.
  by rewrite strip_idemp.
Qed.

(** An instance of [checker_compares_whole_output]: a checker printing
    [accept] and a newline. *)
Lemma checker_compares_whole_output_witness :
  ∃ d, Spec.ran_to_exit "python" (Sample.exited 0 15 "accept
" EmptyString None) d
    ∧ run_dynamic_checker "print('accept')" "python" "7" "7" "3 4"
        (Sample.exited 0 15 "accept
" EmptyString None)
      = (bool_decide (PyStr.upper (PyStr.strip (stdout d)) = "ACCEPT"),
         PyStr.strip (stdout d)).
Proof.
  apply (checker_compares_whole_output "print('accept')" "python" "7" "7" "3 4").
  vm_compute. reflexivity.
Defined.

(** C6 (as stated) fails: on the output [ACCEPT ok] followed by a newline
    the first token, upper-cased, is ACCEPT, but the checker runner
    rejects, and its message is not the output verbatim. *)
Lemma checker_first_token_rejected :
  let checker_stdout := "ACCEPT ok
" in
  let w := Sample.exited 0 15 checker_stdout EmptyString None in
  r_verdict (execute_code "python" "print('ACCEPT ok')"
               (Json.dumps [("input", "3 4"); ("expected", "7"); ("actual", "7")])
               5000 64 w) = SUCCESS
  ∧ Spec.checker_accepts checker_stdout = true
  ∧ run_dynamic_checker "print('ACCEPT ok')" "python" "7" "7" "3 4" w
    = (false, "ACCEPT ok")
  ∧ "ACCEPT ok" ≠ checker_stdout.
Proof. vm_compute. repeat split; discriminate. Qed.

(** ** The per-test loop *)

Local Open Scope list_scope.
Local Open Scope Z_scope.

Section loop.

Variables (language code : string) (problem_data : Problem).

Abbreviation run_user tc sandbox :=
  (execute_code language code (input tc)
     (p_time_limit problem_data) (p_memory_limit problem_data) sandbox).

Abbreviation run_checker result tc sandbox :=
  (run_dynamic_checker
     (default EmptyString (checker_code problem_data))
     (default EmptyString (checker_language problem_data))
     (get_output result) (expected_output tc) (input tc) sandbox).

(** First [break]: the execution fails. *)
Lemma loop_body_failed i tc st (w : World) :
  r_verdict (run_user tc (w 0%nat)) ≠ SUCCESS →
  loop_body language code problem_data i tc st w
  = ((after st (run_user tc (w 0%nat)) (failed_test i (run_user tc (w 0%nat))) false,
      false),
     fun n => w (S n)).
Proof.
  intros Hv. unfold loop_body, mbind, M_bind, call, mret, M_ret.
  by rewrite bool_decide_eq_true_2.
Qed.

(** The execution succeeds and the problem has no checker. *)
Lemma loop_body_compared i tc st (w : World) :
  r_verdict (run_user tc (w 0%nat)) = SUCCESS →
  has_checker problem_data = false →
  let result := run_user tc (w 0%nat) in
  let is_correct :=
    bool_decide (PyStr.strip (get_output result) = PyStr.strip (expected_output tc)) in
  loop_body language code problem_data i tc st w
  = ((after st result
        (checked_test i (if is_correct then AC else WA) result EmptyString) is_correct,
      is_correct),
     fun n => w (S n)).
Proof.
  intros Hv Hc. unfold loop_body, check_output, mbind, M_bind, call, mret, M_ret.
  rewrite Hc, bool_decide_eq_false_2 by (intros H; by apply H). done.
Qed.

(** The execution succeeds and the checker decides. *)
Lemma loop_body_checked i tc st (w : World) :
  r_verdict (run_user tc (w 0%nat)) = SUCCESS →
  has_checker problem_data = true →
  let result := run_user tc (w 0%nat) in
  let answer := run_checker result tc (w 1%nat) in
  loop_body language code problem_data i tc st w
  = ((after st result
        (checked_test i (if answer.1 then AC else WA) result answer.2) answer.1,
      answer.1),
     fun n => w (S (S n))).
Proof.
  intros Hv Hc. unfold loop_body, check_output, mbind, M_bind, call, mret, M_ret.
  rewrite Hc, bool_decide_eq_false_2 by (intros H; by apply H).
  cbv zeta. by destruct (run_dynamic_checker _ _ _ _ _ _).
Qed.

(** An iteration appends one record: AC with one more passed test when
    the loop goes on, a failing verdict with the count unchanged on
    [break]. *)
Lemma loop_body_shape i tc st w :
  ∃ r, results (loop_body language code problem_data i tc st w).1.1 = results st ++ [r]
    ∧ if (loop_body language code problem_data i tc st w).1.2
      then t_verdict r = AC
           ∧ passed_count (loop_body language code problem_data i tc st w).1.1
             = passed_count st + 1
      else t_verdict r ∈ [WA; TLE; MLE; RE; CE]
           ∧ passed_count (loop_body language code problem_data i tc st w).1.1
             = passed_count st.
Proof.
  destruct (decide (r_verdict (run_user tc (w 0%nat)) = SUCCESS)) as [Hs|Hs].
  - destruct (has_checker problem_data) eqn:Hc.
    + rewrite (loop_body_checked _ _ _ _ Hs Hc). cbn.
      eexists; split; [done|]. destruct (run_dynamic_checker _ _ _ _ _ _).1; cbn;
        split; try done; repeat constructor.
    + rewrite (loop_body_compared _ _ _ _ Hs Hc). cbn.
      eexists; split; [done|]. case_bool_decide; cbn; split; try done; repeat constructor.
  - rewrite (loop_body_failed _ _ _ _ Hs). cbn.
    eexists; split; [done|]. split; [|done]. cbn.
    pose proof (execute_code_verdict language code (input tc)
                  (p_time_limit problem_data) (p_memory_limit problem_data) (w 0%nat))
      as Hv.
    rewrite !elem_of_cons, elem_of_nil in Hv.
    destruct Hv as [->| [->| [->| [->| [E|[]]]]]]; try by repeat constructor.
Qed.

(** The records a run of the loop appends: ACs only, one per test case,
    or ACs followed by one failing record on which the loop stopped.
    [passed_count] grows by the number of ACs. *)
Lemma judge_loop_shape tcs : ∀ i st w,
  ∃ acs tail,
    results (judge_loop language code problem_data i tcs st w).1
      = results st ++ acs ++ tail
    ∧ Forall (fun r => t_verdict r = AC) acs
    ∧ passed_count (judge_loop language code problem_data i tcs st w).1
      = passed_count st + Z.of_nat (length acs)
    ∧ ((tail = [] ∧ length acs = length tcs)
       ∨ (∃ bad, tail = [bad] ∧ t_verdict bad ∈ [WA; TLE; MLE; RE; CE]
                 ∧ (length acs < length tcs)%nat)).
Proof.
  induction tcs as [|tc rest IH]; intros i st w.
  { exists [], []. cbn. rewrite app_nil_r. repeat split; auto with lia. }
  cbn [judge_loop]. unfold mbind, M_bind.
  destruct (loop_body_shape i tc st w) as (r & Hres & Hcont).
  destruct (loop_body language code problem_data i tc st w) as [[st1 continue] w1].
  cbn [fst snd] in *. destruct continue.
  - destruct Hcont as [Hr Hp].
    destruct (IH (i + 1) st1 w1) as (acs & tail & Hres' & Hacs & Hp' & Htail).
    exists (r :: acs), tail. rewrite Hres', Hres, Hp', Hp.
    split; [by rewrite <- app_assoc|]. split; [by constructor|].
    split; [cbn [length]; lia|].
    destruct Htail as [[-> Hl]|(bad & -> & Hbad & Hl)]; [left|right].
    + split; [done|]. cbn [length]. lia.
    + exists bad. split; [done|]. split; [done|]. cbn [length]. lia.
  - destruct Hcont as [Hr Hp]. exists [], [r]. cbn [mret M_ret fst].
    rewrite Hres, Hp. split; [done|]. split; [constructor|].
    split; [cbn; lia|]. right. exists r. cbn [length]. split; [done|].
    split; [done|lia].
Qed.

End loop.

(** ** The final verdict *)

Lemma final_verdict_AC_iff passed tcs rs :
  final_verdict passed tcs rs = AC ↔ passed = Z.of_nat (length tcs).
Proof.
  unfold final_verdict. repeat case_bool_decide; split; try done.
Qed.

Lemma final_verdict_terminal passed tcs rs :
  final_verdict passed tcs rs ∈ [AC; WA; TLE; MLE; RE].
Proof.
  unfold final_verdict. repeat case_bool_decide; repeat constructor.
Qed.

Lemma worst_passing_then acs bad :
  Forall (fun r => t_verdict r = AC) acs →
  Spec.priority (t_verdict bad) ≠ 0%nat →
  Spec.worst (map t_verdict (acs ++ [bad])) = t_verdict bad.
Proof.
  intros Hacs Hbad. induction Hacs as [|r acs Hr _ IH].
  - cbn. destruct (t_verdict bad); cbn in *; done.
  - change (Spec.worst (map t_verdict ((r :: acs) ++ [bad])))
      with (if (Spec.priority (Spec.worst (map t_verdict (acs ++ [bad])))
                <? Spec.priority (t_verdict r))%nat
            then t_verdict r else Spec.worst (map t_verdict (acs ++ [bad]))).
    by rewrite IH, Hr.
Qed.

(** The aggregation picks the worst recorded verdict as long as no CE was
    recorded. *)
Lemma judge_problem_worst language code problem_data now w :
  let u := (judge_problem language code problem_data now w).1 in
  u_verdict u ≠ AC →
  CE ∉ map t_verdict (u_judge_output u) →
  u_verdict u = Spec.worst (map t_verdict (u_judge_output u)).
Proof.
  unfold judge_problem, mbind, M_bind, mret, M_ret.
  pose proof (judge_loop_shape language code problem_data (test_cases problem_data) 0
                {| results := []; passed_count := 0; max_time := 0; max_memory := 0 |} w)
    as (acs & tail & Hres & Hacs & Hp & Htail).
  destruct (judge_loop _ _ _ _ _ _ _) as [st w']. cbn in *.
  intros HAC HCE. rewrite Hres in *.
  destruct Htail as [[-> Hlen]|(bad & -> & Hbad & Hlen)].
  { exfalso. apply HAC. apply final_verdict_AC_iff. lia. }
  assert (t_verdict bad ≠ CE) as Hne.
  { intros E. apply HCE. rewrite map_app, elem_of_app. right. cbn. rewrite E.
    by constructor. }
  assert (∀ v, v ≠ AC → v ∈ map t_verdict (acs ++ [bad]) ↔ v = t_verdict bad) as Hin.
  { intros v Hv. rewrite map_app, elem_of_app. cbn. rewrite list_elem_of_singleton.
    split; [|by right]. intros [Hel|]; [|done].
    apply list_elem_of_fmap in Hel as (r & -> & Hel).
    rewrite Forall_forall in Hacs. by apply Hacs in Hel. }
  rewrite worst_passing_then; [|done|].
  2:{ rewrite !elem_of_cons, elem_of_nil in Hbad.
      destruct Hbad as [->| [->| [->| [->| [->|[]]]]]]; done. }
  unfold final_verdict. rewrite bool_decide_eq_false_2 by lia.
  repeat case_bool_decide;
    repeat match goal with
           | H : _ ∈ map _ _ |- _ => apply Hin in H; [|done]
           | H : _ ∉ map _ _ |- _ => rewrite Hin in H by done
           end; try done.
  rewrite !elem_of_cons, elem_of_nil in Hbad.
  destruct Hbad as [E| [E| [E| [E| [E|[]]]]]]; congruence.
Qed.

(** ** The two writes *)

Lemma mark_judging_row id db :
  submissions (mark_judging id db) !! id = set_verdict JUDGING <$> submissions db !! id.
Proof. unfold mark_judging, update_submission. cbn. apply lookup_alter_eq. Qed.

Lemma judge_submission_writes_missing job now db w :
  problems db !! problem_id job = None →
  judge_submission_writes job now db w = ([mark_judging (submission_id job) db], w).
Proof.
  intros Hp. unfold judge_submission_writes. cbn [mark_judging update_submission problems].
  by rewrite Hp.
Qed.

Lemma judge_submission_writes_found job now db w problem_data :
  problems db !! problem_id job = Some problem_data →
  judge_submission_writes job now db w
  = ([mark_judging (submission_id job) db;
      update_submission
        (apply_update (judge_problem (j_language job) (j_code job) problem_data now w).1)
        (submission_id job) (mark_judging (submission_id job) db)],
     (judge_problem (j_language job) (j_code job) problem_data now w).2).
Proof.
  intros Hp. unfold judge_submission_writes. cbn [mark_judging update_submission problems].
  rewrite Hp. unfold mbind, M_bind, mret, M_ret.
  by destruct (judge_problem _ _ _ _ _).
Qed.

(** The row of a judged submission: the columns of [update_data] over the
    row as the API created it. *)
Lemma judge_submission_row job now db w problem_data row :
  problems db !! problem_id job = Some problem_data →
  submissions db !! submission_id job = Some row →
  submissions (judge_submission job now db w).1 !! submission_id job
  = Some (apply_update (judge_problem (j_language job) (j_code job) problem_data now w).1
            (set_verdict JUDGING row)).
Proof.
  intros Hp Hr. unfold judge_submission, mbind, M_bind, mret, M_ret.
  rewrite (judge_submission_writes_found _ _ _ _ _ Hp). cbn.
  rewrite lookup_alter_eq, lookup_alter_eq, Hr. done.
Qed.

(** The columns [judge_problem] computes. *)
Lemma judge_problem_columns language code problem_data now w :
  let u := (judge_problem language code problem_data now w).1 in
  let st := (judge_loop language code problem_data 0 (test_cases problem_data)
               {| results := []; passed_count := 0; max_time := 0; max_memory := 0 |} w).1 in
  u_verdict u = final_verdict (passed_count st) (test_cases problem_data) (results st)
  ∧ u_test_cases_passed u = passed_count st
  ∧ u_total_test_cases u = Z.of_nat (length (test_cases problem_data))
  ∧ u_judge_output u = results st.
Proof.
  unfold judge_problem, mbind, M_bind, mret, M_ret.
  by destruct (judge_loop _ _ _ _ _ _ _).
Qed.

(** C2: the row of a judged submission holds a terminal verdict, and this
    verdict is AC if and only if [test_cases_passed] equals
    [total_test_cases]. *)
Theorem verdict_AC_iff_all_passed job now db w problem_data row :
  problems db !! problem_id job = Some problem_data →
  submissions db !! submission_id job = Some row →
  ∃ row', submissions (judge_submission job now db w).1 !! submission_id job = Some row'
    ∧ is_terminal (s_verdict row') = true
    ∧ (s_verdict row' = AC ↔ s_test_cases_passed row' = s_total_test_cases row').
Proof.
  intros Hp Hr. eexists. split; [by apply judge_submission_row|].
  cbn [apply_update s_verdict s_test_cases_passed s_total_test_cases].
  destruct (judge_problem_columns (j_language job) (j_code job) problem_data now w)
    as (-> & -> & -> & _).
  split.
  - pose proof (final_verdict_terminal
                  (passed_count (judge_loop (j_language job) (j_code job) problem_data 0
                     (test_cases problem_data)
                     {| results := []; passed_count := 0; max_time := 0; max_memory := 0 |}
                     w).1)
                  (test_cases problem_data)
                  (results (judge_loop (j_language job) (j_code job) problem_data 0
                     (test_cases problem_data)
                     {| results := []; passed_count := 0; max_time := 0; max_memory := 0 |}
                     w).1)) as Hv.
    rewrite !elem_of_cons, elem_of_nil in Hv.
    destruct Hv as [->| [->| [->| [->| [->|[]]]]]]; done.
  - rewrite final_verdict_AC_iff. split; [by intros ->|congruence].
Qed.

(** An instance of [verdict_AC_iff_all_passed]: a Python submission on the
    two-test problem, the sandbox echoing [1] at every call. *)
Lemma verdict_AC_iff_all_passed_witness :
  ∃ row', submissions (judge_submission (Sample.job "python" 7) "2025-01-01T00:00:00"
                         (Sample.db (Sample.row PENDING) None)
                         (fun _ => Sample.exited 0 12 "1" EmptyString None)).1 !! 1
          = Some row'
    ∧ is_terminal (s_verdict row') = true
    ∧ (s_verdict row' = AC ↔ s_test_cases_passed row' = s_total_test_cases row').
Proof.
  apply (verdict_AC_iff_all_passed (Sample.job "python" 7) "2025-01-01T00:00:00"
           (Sample.db (Sample.row PENDING) None) _ (Sample.echo None) (Sample.row PENDING));
    vm_compute; reflexivity.
Defined.

(** C3: on the row of a judged submission, [judge_output] has at most
    [total_test_cases] entries; when it has fewer, its last entry has a
    verdict other than AC and its length is [test_cases_passed + 1]. *)
Theorem judge_output_length job now db w problem_data row :
  problems db !! problem_id job = Some problem_data →
  submissions db !! submission_id job = Some row →
  ∃ row' judge_output passed total,
    submissions (judge_submission job now db w).1 !! submission_id job = Some row'
    ∧ s_judge_output row' = Some judge_output
    ∧ s_test_cases_passed row' = Some passed
    ∧ s_total_test_cases row' = Some total
    ∧ Z.of_nat (length judge_output) ≤ total
    ∧ (Z.of_nat (length judge_output) < total →
         (∃ r, last judge_output = Some r ∧ t_verdict r ≠ AC)
         ∧ Z.of_nat (length judge_output) = passed + 1).
Proof.
  intros Hp Hr. do 4 eexists.
  split; [by apply judge_submission_row|].
  cbn [apply_update s_judge_output s_test_cases_passed s_total_test_cases].
  do 3 (split; [done|]).
  destruct (judge_problem_columns (j_language job) (j_code job) problem_data now w)
    as (_ & -> & -> & ->).
  destruct (judge_loop_shape (j_language job) (j_code job) problem_data
              (test_cases problem_data) 0
              {| results := []; passed_count := 0; max_time := 0; max_memory := 0 |} w)
    as (acs & tail & -> & Hacs & -> & Htail).
  cbn [results passed_count app].
  destruct Htail as [[-> Hlen]|(bad & -> & Hbad & Hlen)].
  - rewrite app_nil_r. split; [lia|]. lia.
  - rewrite length_app. cbn [length]. split; [lia|]. intros _. split; [|lia].
    exists bad. split; [apply last_snoc|].
    rewrite !elem_of_cons, elem_of_nil in Hbad.
    destruct Hbad as [->| [->| [->| [->| [->|[]]]]]]; done.
Qed.

(** An instance of [judge_output_length]: the first test of two fails, so
    the run stops with one record. *)
Lemma judge_output_length_witness :
  ∃ row' judge_output passed total,
    submissions (judge_submission (Sample.job "python" 7) "2025-01-01T00:00:00"
                   (Sample.db (Sample.row PENDING) None)
                   (fun _ => Sample.exited 0 12 "3" EmptyString None)).1 !! 1
    = Some row'
    ∧ s_judge_output row' = Some judge_output
    ∧ s_test_cases_passed row' = Some passed
    ∧ s_total_test_cases row' = Some total
    ∧ Z.of_nat (length judge_output) ≤ total
    ∧ (Z.of_nat (length judge_output) < total →
         (∃ r, last judge_output = Some r ∧ t_verdict r ≠ AC)
         ∧ Z.of_nat (length judge_output) = passed + 1).
Proof.
  apply (judge_output_length (Sample.job "python" 7) "2025-01-01T00:00:00"
           (Sample.db (Sample.row PENDING) None) _ (Sample.echo None) (Sample.row PENDING));
    vm_compute; reflexivity.
Defined.

(** C1, on a submission in a language the executor does not know: the
    only recorded verdict is CE, so the worst recorded verdict under
    CE > TLE > MLE > RE > WA is CE, yet the verdict written to the row is
    WA. *)
Theorem compile_error_judged_WA now w :
  ∃ row' judge_output,
    submissions (judge_submission (Sample.job "ruby" 7) now
                   (Sample.db (Sample.row PENDING) None) w).1 !! 1 = Some row'
    ∧ s_judge_output row' = Some judge_output
    ∧ map t_verdict judge_output = [CE]
    ∧ Spec.worst (map t_verdict judge_output) = CE
    ∧ s_verdict row' = WA.
Proof.
  do 2 eexists. split; [|split; [|split; [|split]]].
  - apply (judge_submission_row (Sample.job "ruby" 7) now
             (Sample.db (Sample.row PENDING) None) w
             (Sample.echo None) (Sample.row PENDING));
      vm_compute; reflexivity.
  - vm_compute. reflexivity.
  - reflexivity.
  - reflexivity.
  - vm_compute. reflexivity.
Qed.

(** With a clock reading, [judge_submission_run] is
    [judge_submission_writes]. *)
Lemma judge_submission_run_clock job now db w :
  judge_submission_run job (Some now) db w = judge_submission_writes job now db w.
Proof.
  unfold judge_submission_run, judge_submission_writes.
  by destruct (problems _ !! _).
Qed.

Lemma judge_submission_run_stuck job db w problem_data :
  problems db !! problem_id job = Some problem_data →
  (judge_submission_run job None db w).1 = [mark_judging (submission_id job) db].
Proof.
  intros Hp. unfold judge_submission_run.
  cbn [mark_judging update_submission problems]. rewrite Hp.
  unfold mbind, M_bind, mret, M_ret. by destruct (judge_loop _ _ _ _ _ _ _).
Qed.

(** C4 (as amended): a judging run first sets the row to JUDGING, whatever
    state the row is in and leaving its other columns alone.  It makes at
    most one more write to the row, its final update, which gives the row
    a verdict among AC, WA, TLE, MLE and RE and which is made only if the
    problem loads and the run gets as far as that update; otherwise the
    row stays in JUDGING.  Nothing is dropped: a job delivered again for a
    row already in a terminal state puts the row back to JUDGING. *)
Theorem judging_run_transitions job clock db w row :
  submissions db !! submission_id job = Some row →
  let writes := (judge_submission_run job clock db w).1 in
  let verdict_in (s : Store) := s_verdict <$> submissions s !! submission_id job in
  (∃ first, head writes = Some first
     ∧ submissions first !! submission_id job = Some (set_verdict JUDGING row))
  ∧ match problems db !! problem_id job, clock with
    | Some _, Some _ => ∃ v, verdict_in <$> writes = [Some JUDGING; Some v]
                             ∧ v ∈ [AC; WA; TLE; MLE; RE]
    | _, _ => verdict_in <$> writes = [Some JUDGING]
    end.
Proof.
  intros Hr. cbv zeta.
  destruct (problems db !! problem_id job) as [problem_data|] eqn:Hp.
  - destruct clock as [now|].
    + rewrite judge_submission_run_clock, (judge_submission_writes_found _ _ _ _ _ Hp).
      cbn [fst head fmap list_fmap]. split.
      { eexists. split; [done|]. by rewrite mark_judging_row, Hr. }
      eexists. split.
      { rewrite mark_judging_row, Hr. cbn [update_submission submissions].
        rewrite lookup_alter_eq, mark_judging_row, Hr. cbn. reflexivity. }
      destruct (judge_problem_columns (j_language job) (j_code job) problem_data now w)
        as (-> & _).
      apply final_verdict_terminal.
    + rewrite (judge_submission_run_stuck _ _ _ _ Hp). cbn [head fmap list_fmap].
      split.
      { eexists. split; [done|]. by rewrite mark_judging_row, Hr. }
      by rewrite mark_judging_row, Hr.
  - assert ((judge_submission_run job clock db w).1 = [mark_judging (submission_id job) db])
      as ->.
    { unfold judge_submission_run. cbn [mark_judging update_submission problems].
      by rewrite Hp. }
    cbn [head fmap list_fmap]. split.
    { eexists. split; [done|]. by rewrite mark_judging_row, Hr. }
    by rewrite mark_judging_row, Hr.
Qed.

(** An instance of [judging_run_transitions]: a fresh submission, the
    sandbox echoing [1], the clock read. *)
Lemma judging_run_transitions_witness :
  let job := Sample.job "python" 7 in
  let db := Sample.db (Sample.row PENDING) None in
  let writes := (judge_submission_run job (Some "2025-01-01T00:00:00") db
                   (fun _ => Sample.exited 0 12 "1" EmptyString None)).1 in
  let verdict_in (s : Store) := s_verdict <$> submissions s !! submission_id job in
  (∃ first, head writes = Some first
     ∧ submissions first !! submission_id job
       = Some (set_verdict JUDGING (Sample.row PENDING)))
  ∧ ∃ v, verdict_in <$> writes = [Some JUDGING; Some v] ∧ v ∈ [AC; WA; TLE; MLE; RE].
Proof.
  apply (judging_run_transitions (Sample.job "python" 7) (Some "2025-01-01T00:00:00")
           (Sample.db (Sample.row PENDING) None)
           (fun _ => Sample.exited 0 12 "1" EmptyString None) (Sample.row PENDING)).
  vm_compute. reflexivity.
Defined.

(** C4 (as stated) fails: a job delivered again for a row in state AC is
    not dropped.  Its row is put back to JUDGING; there it stays when the
    run does not get to its final update, and it is overwritten, here
    with RE, when it does.  Either way the row is modified. *)
Lemma redelivered_job_is_not_dropped :
  let job := Sample.job "python" 7 in
  let db := Sample.db Sample.accepted_row None in
  let w : World := fun _ => Sample.exited 1 12 EmptyString "Traceback" None in
  let verdict_in (s : Store) := s_verdict <$> submissions s !! 1 in
  verdict_in db = Some AC
  ∧ verdict_in <$> (judge_submission_run job None db w).1 = [Some JUDGING]
  ∧ verdict_in <$> (judge_submission_run job (Some "2025-01-02T00:00:00") db w).1
    = [Some JUDGING; Some RE]
  ∧ submissions (List.last (judge_submission_run job None db w).1 db) !! 1
    ≠ submissions db !! 1
  ∧ submissions (List.last (judge_submission_run job (Some "2025-01-02T00:00:00") db w).1
                   db) !! 1
    ≠ submissions db !! 1.
Proof. vm_compute. repeat split; discriminate. Qed.

(** C5 (as amended): when the problem cannot be loaded, the judge stops
    processing the job: it has set the verdict of the row to JUDGING and
    changes nothing else, the sandbox is not called, and neither RE nor a
    message is recorded. *)
Theorem missing_problem_stops job now db w :
  problems db !! problem_id job = None →
  judge_submission job now db w = (mark_judging (submission_id job) db, w)
  ∧ submissions (mark_judging (submission_id job) db) !! submission_id job
    = set_verdict JUDGING <$> submissions db !! submission_id job
  ∧ (∀ id, id ≠ submission_id job →
       submissions (mark_judging (submission_id job) db) !! id = submissions db !! id)
  ∧ problems (mark_judging (submission_id job) db) = problems db.
Proof.
  intros Hp. split; [|split; [|split]].
  - unfold judge_submission, mbind, M_bind, mret, M_ret.
    by rewrite (judge_submission_writes_missing _ _ _ _ Hp).
  - apply mark_judging_row.
  - intros id Hid. unfold mark_judging, update_submission. cbn.
    by apply lookup_alter_ne.
  - done.
Qed.

(** An instance of [missing_problem_stops]: problem 8 is not in the
    store. *)
Lemma missing_problem_stops_witness :
  problems (Sample.db (Sample.row PENDING) None) !! 8 = None
  ∧ s_verdict <$> submissions
      (judge_submission (Sample.job "python" 8) "2025-01-01T00:00:00"
         (Sample.db (Sample.row PENDING) None)
         (fun _ => Sample.exited 0 12 "1" EmptyString None)).1 !! 1
    = Some JUDGING.
Proof.
  assert (problems (Sample.db (Sample.row PENDING) None) !! 8 = None) as Hp
    by (vm_compute; reflexivity).
  split; [exact Hp|].
  destruct (missing_problem_stops (Sample.job "python" 8) "2025-01-01T00:00:00"
              (Sample.db (Sample.row PENDING) None)
              (fun _ => Sample.exited 0 12 "1" EmptyString None) Hp) as (-> & H & _).
  cbn [fst]. change 1 with (submission_id (Sample.job "python" 8)).
  rewrite H. vm_compute. reflexivity.
Defined.

(** C5 (as stated) fails: with problem 8 missing, the row is left with
    verdict JUDGING, not RE, and nothing else is recorded on it. *)
Lemma missing_problem_not_RE :
  let db := Sample.db (Sample.row PENDING) None in
  let row' := submissions
                (judge_submission (Sample.job "python" 8) "2025-01-01T00:00:00" db
                   (fun _ => Sample.exited 0 12 "1" EmptyString None)).1 !! 1 in
  problems db !! 8 = None
  ∧ s_verdict <$> row' = Some JUDGING
  ∧ s_verdict <$> row' ≠ Some RE
  ∧ s_judge_output <$> row' = Some None.
Proof. vm_compute. repeat split; discriminate. Qed.

(** ** Literal comparison and the checker inside the loop *)

Section checking.

Variables (language code : string) (problem_data : Problem).

Abbreviation run_user tc sandbox :=
  (execute_code language code (input tc)
     (p_time_limit problem_data) (p_memory_limit problem_data) sandbox).

Lemma judge_loop_compared tcs : ∀ i st (w : World),
  has_checker problem_data = false →
  ∃ new, results (judge_loop language code problem_data i tcs st w).1 = results st ++ new
    ∧ ∀ (j : nat) r, new !! j = Some r →
        ∃ tc, tcs !! j = Some tc ∧ Spec.compared language code problem_data tc (w j) r.
Proof.
  induction tcs as [|tc rest IH]; intros i st w Hc.
  { exists []. cbn. rewrite app_nil_r. split; [done|]. intros j r. by destruct j. }
  cbn [judge_loop]. unfold mbind, M_bind.
  destruct (decide (r_verdict (run_user tc (w 0%nat)) = SUCCESS)) as [Hs|Hs].
  - rewrite (loop_body_compared _ _ _ _ _ _ _ Hs Hc). cbv zeta.
    set (r0 := checked_test i _ _ _).
    assert (Spec.compared language code problem_data tc (w 0%nat) r0) as Hr0.
    { unfold Spec.compared, Spec.user_run. rewrite decide_True by done. subst r0. cbn.
      by repeat case_bool_decide; case_decide. }
    case_bool_decide as Heq.
    + destruct (IH (i + 1) (after st (run_user tc (w 0%nat)) r0 true)
                  (fun n => w (S n)) Hc) as (new & Hres & Hnew).
      exists (r0 :: new). rewrite Hres. cbn [after results].
      split; [by rewrite <- app_assoc|].
      intros [|j] r Hj; cbn in Hj.
      * inversion Hj; subst. by exists tc.
      * by apply Hnew in Hj.
    + exists [r0]. cbn. split; [done|].
      intros [|j] r Hj; cbn in Hj; [|by destruct j].
      inversion Hj; subst. by exists tc.
  - rewrite (loop_body_failed _ _ _ _ _ _ _ Hs). cbn.
    eexists [_]. split; [done|].
    intros [|j] r Hj; cbn in Hj; [|by destruct j].
    inversion Hj; subst. exists tc. split; [done|].
    unfold Spec.compared, Spec.user_run. by rewrite decide_False.
Qed.

End checking.

(** C9: when the problem has no checker, every record of [judge_output]
    that follows a successful execution is AC if the user output and the
    expected output are equal after stripping leading and trailing
    whitespace, and WA otherwise; the texts are compared as they are, with
    no other normalization. *)
Theorem literal_comparison language code problem_data now (w : World) :
  has_checker problem_data = false →
  ∀ (j : nat) r,
    u_judge_output (judge_problem language code problem_data now w).1 !! j = Some r →
    ∃ tc, test_cases problem_data !! j = Some tc
      ∧ let result := execute_code language code (input tc)
                        (p_time_limit problem_data) (p_memory_limit problem_data) (w j) in
        r_verdict result = SUCCESS →
        t_verdict r = (if decide (PyStr.strip (get_output result)
                                  = PyStr.strip (expected_output tc))
                       then AC else WA).
Proof.
  intros Hc j r Hj.
  destruct (judge_problem_columns language code problem_data now w) as (_ & _ & _ & Hout).
  rewrite Hout in Hj.
  destruct (judge_loop_compared language code problem_data (test_cases problem_data) 0
              {| results := []; passed_count := 0; max_time := 0; max_memory := 0 |} w Hc)
    as (new & Hres & Hnew).
  rewrite Hres in Hj. cbn in Hj.
  destruct (Hnew j r Hj) as (tc & Htc & Hcmp).
  exists tc. split; [done|]. intros result Hs. subst result.
  unfold Spec.compared, Spec.user_run in Hcmp. cbv zeta in Hcmp.
  by rewrite decide_True in Hcmp.
Qed.

(** An instance of [literal_comparison]: the second record of the run of
    [Sample.spaced] is WA, the inner blanks differ. *)
Lemma literal_comparison_witness :
  ∃ r, u_judge_output (judge_problem "python" "print(input())" Sample.spaced
                         "2025-01-01T00:00:00" Sample.spaced_world).1 !! 1%nat = Some r
    ∧ t_verdict r = WA.
Proof.
  eexists. split; [vm_compute; reflexivity|].
  edestruct (literal_comparison "python" "print(input())" Sample.spaced
               "2025-01-01T00:00:00" Sample.spaced_world eq_refl 1%nat)
    as (tc & Htc & H); [vm_compute; reflexivity|].
  vm_compute in Htc. injection Htc as <-.
  exact (H eq_refl).
Defined.

Section checker_in_loop.

Variables (language code : string) (problem_data : Problem).

Abbreviation user_result tc sandbox :=
  (execute_code language code (input tc)
     (p_time_limit problem_data) (p_memory_limit problem_data) sandbox).

(** With a checker, a passing test case takes two calls of the sandbox;
    after a prefix of passing test cases the loop is at the next test case
    with one AC record and one passed test per test case of the prefix. *)
Lemma judge_loop_passing_prefix pre : ∀ i st (w : World) rest,
  has_checker problem_data = true →
  (∀ (j : nat) tc, pre !! j = Some tc →
     Spec.checker_passes language code problem_data tc (w (2 * j)%nat) (w (S (2 * j)))) →
  ∃ st1 (w1 : World) acs,
    judge_loop language code problem_data i (pre ++ rest) st w
    = judge_loop language code problem_data (i + Z.of_nat (length pre)) rest st1 w1
    ∧ (∀ n, w1 n = w (2 * length pre + n)%nat)
    ∧ results st1 = results st ++ acs
    ∧ Forall (fun r => t_verdict r = AC) acs
    ∧ length acs = length pre
    ∧ passed_count st1 = passed_count st + Z.of_nat (length pre).
Proof.
  induction pre as [|tc pre IH]; intros i st w rest Hc Hpass.
  { exists st, w, []. cbn. rewrite app_nil_r, Z.add_0_r. repeat split; auto with lia. }
  destruct (Hpass 0%nat tc eq_refl) as [Hs Hacc].
  unfold Spec.user_run in Hs, Hacc. cbn in Hs, Hacc.
  cbn [app judge_loop]. unfold mbind, M_bind.
  rewrite (loop_body_checked _ _ _ _ _ _ _ Hs Hc). cbv zeta. rewrite Hacc.
  set (st' := after st _ _ true).
  assert (∀ (j : nat) tc', pre !! j = Some tc' →
            Spec.checker_passes language code problem_data tc'
              (w (S (S (2 * j)))) (w (S (S (S (2 * j)))))) as Hpass'.
  { intros j tc' Hj. specialize (Hpass (S j) tc' Hj).
    replace (2 * S j)%nat with (S (S (2 * j))) in Hpass by lia. exact Hpass. }
  destruct (IH (i + 1) st' (fun n => w (S (S n))) rest Hc Hpass') as
    (st1 & w1 & acs & Heq & Hw1 & Hres & Hacs & Hlen & Hp).
  exists st1, w1, (checked_test i AC (user_result tc (w 0%nat))
                     (run_dynamic_checker
                        (default EmptyString (checker_code problem_data))
                        (default EmptyString (checker_language problem_data))
                        (get_output (user_result tc (w 0%nat)))
                        (expected_output tc) (input tc) (w 1%nat)).2 :: acs).
  split; [rewrite Heq; f_equal; cbn [length]; lia|].
  split.
  { intros n. rewrite Hw1. f_equal. cbn [length]. lia. }
  split; [rewrite Hres; subst st'; cbn; by rewrite <- app_assoc|].
  split; [by constructor|].
  split; [cbn [length]; lia|].
  rewrite Hp. subst st'. cbn [after passed_count length]. lia.
Qed.

End checker_in_loop.

Lemma run_dynamic_checker_failed checker_code checker_language user_output
    expected_output test_input w :
  r_verdict (execute_code checker_language checker_code
               (Json.dumps [("input", test_input); ("expected", expected_output);
                            ("actual", user_output)]) 5000 64 w) ≠ SUCCESS →
  run_dynamic_checker checker_code checker_language user_output expected_output
    test_input w = (false, "Checker execution failed").
Proof.
  intros Hv. unfold run_dynamic_checker. by rewrite bool_decide_eq_true_2.
Qed.

Lemma final_verdict_passing_then_WA passed tcs acs bad :
  passed ≠ Z.of_nat (length tcs) →
  Forall (fun r => t_verdict r = AC) acs →
  t_verdict bad = WA →
  final_verdict passed tcs (acs ++ [bad]) = WA.
Proof.
  intros Hp Hacs Hbad. unfold final_verdict.
  rewrite bool_decide_eq_false_2 by done.
  assert (∀ v, v ∈ map t_verdict (acs ++ [bad]) → v = AC ∨ v = WA) as Hin.
  { intros v. rewrite map_app, elem_of_app. cbn. rewrite list_elem_of_singleton, Hbad.
    intros [Hel|]; [left|by right].
    apply list_elem_of_fmap in Hel as (r & -> & Hel).
    rewrite Forall_forall in Hacs. by apply Hacs in Hel. }
  repeat case_bool_decide; try done;
    match goal with H : _ ∈ map _ _ |- _ => by destruct (Hin _ H) end.
Qed.

(** C7: when the execution of the checker ends with a verdict other than
    SUCCESS, [run_dynamic_checker] returns false with the message [Checker
    execution failed]; the judge then records WA with this message on the
    test case at hand, after an AC for each test case passed before it,
    and completes the submission with the verdict WA: the failure of the
    checker does not become the verdict of the submission. *)
Theorem checker_failure_reported_as_WA :
  (∀ checker_code checker_language user_output expected_output test_input w,
     r_verdict (execute_code checker_language checker_code
                  (Json.dumps [("input", test_input); ("expected", expected_output);
                               ("actual", user_output)]) 5000 64 w) ≠ SUCCESS →
     run_dynamic_checker checker_code checker_language user_output expected_output
       test_input w = (false, "Checker execution failed"))
  ∧ (∀ language code problem_data now (w : World) pre tc post,
       has_checker problem_data = true →
       test_cases problem_data = pre ++ tc :: post →
       (∀ (j : nat) tc', pre !! j = Some tc' →
          Spec.checker_passes language code problem_data tc'
            (w (2 * j)%nat) (w (S (2 * j)))) →
       let result := execute_code language code (input tc) (p_time_limit problem_data)
                       (p_memory_limit problem_data) (w (2 * length pre)%nat) in
       r_verdict result = SUCCESS →
       r_verdict (Spec.checker_run problem_data tc (get_output result)
                    (w (S (2 * length pre)))) ≠ SUCCESS →
       let u := (judge_problem language code problem_data now w).1 in
       last (u_judge_output u)
       = Some (checked_test (Z.of_nat (length pre)) WA result "Checker execution failed")
       ∧ length (u_judge_output u) = S (length pre)
       ∧ u_test_cases_passed u = Z.of_nat (length pre)
       ∧ u_verdict u = WA).
Proof.
  split; [exact run_dynamic_checker_failed|].
  intros language code problem_data now w pre tc post Hc Htcs Hpass result Hs Hchk u.
  subst u result.
  destruct (judge_problem_columns language code problem_data now w)
    as (-> & -> & _ & ->).
  rewrite Htcs.
  destruct (judge_loop_passing_prefix language code problem_data pre 0
              {| results := []; passed_count := 0; max_time := 0; max_memory := 0 |}
              w (tc :: post) Hc Hpass)
    as (st1 & w1 & acs & -> & Hw1 & Hres & Hacs & Hlen & Hp).
  cbn [results passed_count app] in Hres, Hp.
  assert (w1 0%nat = w (2 * length pre)%nat) as E0
    by (rewrite Hw1; f_equal; lia).
  assert (w1 1%nat = w (S (2 * length pre))) as E1
    by (rewrite Hw1; f_equal; lia).
  rewrite <- E0 in Hs. rewrite <- E0, <- E1 in Hchk. rewrite <- E0.
  cbn [judge_loop]. unfold mbind, M_bind.
  rewrite (loop_body_checked _ _ _ _ _ _ _ Hs Hc). cbv zeta.
  rewrite (run_dynamic_checker_failed _ _ _ _ _ _ Hchk).
  cbn [fst snd mret M_ret after results passed_count].
  rewrite Hres, Hp, Z.add_0_l.
  split; [apply last_snoc|].
  split; [rewrite length_app; cbn [length]; lia|].
  split; [lia|].
  apply final_verdict_passing_then_WA; [|done|done].
  rewrite length_app. cbn [length]. lia.
Qed.

(** An instance of [checker_failure_reported_as_WA]: [Sample.checked],
    whose checker crashes on the third test case. *)
Lemma checker_failure_reported_as_WA_witness :
  let u := (judge_problem "python" "print(7)" Sample.checked "2025-01-01T00:00:00"
              Sample.checker_crash_world).1 in
  last (u_judge_output u)
  = Some {| test_case := 3; t_verdict := WA; t_execution_time := 12;
            t_memory_used := 0; t_detail := CheckerMessage "Checker execution failed" |}
  ∧ length (u_judge_output u) = 3%nat
  ∧ u_test_cases_passed u = 2
  ∧ u_verdict u = WA.
Proof.
  refine (proj2 checker_failure_reported_as_WA "python" "print(7)" Sample.checked
            "2025-01-01T00:00:00" Sample.checker_crash_world
            [ {| input := "3 4"; expected_output := "7"; hidden := false |};
              {| input := "5 2"; expected_output := "7"; hidden := false |} ]
            {| input := "6 1"; expected_output := "7"; hidden := true |} []
            eq_refl eq_refl _ _ _).
  - intros [|[|j]] tc' Hj; cbn in Hj; [| |by destruct j]; injection Hj as <-;
      vm_compute; split; reflexivity.
  - vm_compute. reflexivity.
  - vm_compute. discriminate.
Defined.

(** ** Further properties of the executor *)

(** X1: a language tag other than [c], [python] and [javascript] is
    answered with CE and the message [Unsupported language], without any
    measurement and whatever the environment would do: nothing is run. *)
Theorem unsupported_language language code test_input time_limit memory_limit w :
  language ≠ "c" → language ≠ "python" → language ≠ "javascript" →
  execute_code language code test_input time_limit memory_limit w
  = {| r_verdict := CE; r_output := None; r_error := Some "Unsupported language";
       r_execution_time := None; r_memory_used := None |}.
Proof.
  intros H1 H2 H3. unfold execute_code, language_configs.
  rewrite !lookup_insert_ne by done. by rewrite lookup_empty.
Qed.

Lemma unsupported_language_witness :
  execute_code "ruby" "puts 1" "1" 1000 64 Sample.oom_killed
  = {| r_verdict := CE; r_output := None; r_error := Some "Unsupported language";
       r_execution_time := None; r_memory_used := None |}.
Proof. apply unsupported_language; discriminate. Defined.

(** X2: for [python] and [javascript] there is no compilation step: the
    result does not depend on what a compile container would do. *)
Theorem interpreted_languages_skip_compilation language code test_input time_limit
    memory_limit w w' :
  language = "python" ∨ language = "javascript" →
  files w = files w' → launch w = launch w' → wait w = wait w' →
  cleanup w = cleanup w' →
  execute_code language code test_input time_limit memory_limit w
  = execute_code language code test_input time_limit memory_limit w'.
Proof.
  intros Hl Hf Hla Hw Hc.
  assert (∃ config, language_configs !! language = Some config
                    ∧ has_compile_step config = false) as (config & Hcfg & Hs).
  { destruct Hl as [->| ->]; eexists; (split; [vm_compute; reflexivity|reflexivity]). }
  unfold execute_code, execute_body, compile_then_run, run_step, on_api_error.
  by rewrite Hcfg, Hs, Hf, Hla, Hw, Hc.
Qed.

Lemma interpreted_languages_skip_compilation_witness :
  execute_code "python" "print(1)" "1" 1000 64 (Sample.exited 0 12 "1" EmptyString None)
  = execute_code "python" "print(1)" "1" 1000 64
      {| files := None; compile := inl (OtherException "no compiler"); launch := None;
         wait := inr {| StatusCode := 0; elapsed_ms := 12; stdout := "1";
                        stderr := EmptyString; usage := None |};
         cleanup := None |}.
Proof.
  apply interpreted_languages_skip_compilation; [by left|reflexivity..].
Defined.

(** X3: when the compiler of a C submission exits with a non-zero status,
    the result is CE with the compiler's log as error and time and memory
    0; the program is not run, so nothing else of the environment
    matters. *)
Theorem c_compile_failure code test_input time_limit memory_limit w status logs :
  files w = None → compile w = inr (status, logs) → status ≠ 0 →
  execute_code "c" code test_input time_limit memory_limit w
  = {| r_verdict := CE; r_output := None; r_error := Some logs;
       r_execution_time := Some 0; r_memory_used := Some 0 |}.
Proof.
  intros Hf Hc Hs.
  assert (∃ config, language_configs !! "c" = Some config
                    ∧ has_compile_step config = true) as (config & Hcfg & Hstep).
  { eexists. split; [vm_compute; reflexivity|reflexivity]. }
  unfold execute_code, execute_body, compile_then_run, guard.
  rewrite Hcfg, Hf, Hstep, Hc. by rewrite bool_decide_eq_true_2.
Qed.

Lemma c_compile_failure_witness :
  execute_code "c" "int main() { return 0 }" "1" 1000 64 Demo.compile_failure
  = {| r_verdict := CE; r_output := None;
       r_error := Some "solution.c:1: error: expected ';'";
       r_execution_time := Some 0; r_memory_used := Some 0 |}.
Proof.
  apply (c_compile_failure _ _ _ _ Demo.compile_failure 1); [reflexivity..|discriminate].
Defined.

(** X4: the measurements of a result agree with its verdict: a TLE result
    reports an execution time of at least the time limit, an MLE result a
    memory use above the cap of [memory_limit] MB in KB, a SUCCESS result
    a memory use within the cap and an output without leading or trailing
    whitespace. *)
Theorem measurements_agree_with_verdict language code test_input time_limit memory_limit w :
  let r := execute_code language code test_input time_limit memory_limit w in
  match r_verdict r with
  | TLE => ∃ t, r_execution_time r = Some t ∧ t >= time_limit
  | MLE => ∃ m, r_memory_used r = Some m ∧ m > memory_limit * 1024
  | SUCCESS => (∃ m, r_memory_used r = Some m ∧ m <= memory_limit * 1024)
               ∧ (∃ o, r_output r = Some o ∧ PyStr.strip o = o)
  | _ => True
  end.
Proof.
  exec_unfold.
  repeat (case_match; simplify_eq; simpl; try done);
    repeat match goal with
           | H : bool_decide _ = true |- _ => apply bool_decide_eq_true in H
           | H : bool_decide _ = false |- _ => apply bool_decide_eq_false in H
           end;
    try (eexists; split; [done|lia]);
    (split; [eexists; split; [done|lia] | eexists; split; [done|apply strip_idemp]]).
Qed.

(** X5: a run that exits with status 0 is never classified TLE or RE,
    however long it took: the result is MLE if the memory reading exceeds
    the cap and SUCCESS otherwise, with the measured time reported. *)
Theorem zero_exit_is_never_TLE language code test_input time_limit memory_limit w d :
  Spec.ran_to_exit language w d → StatusCode d = 0 →
  let r := execute_code language code test_input time_limit memory_limit w in
  r_verdict r = (if bool_decide (default 0 (usage d) `div` 1024 > memory_limit * 1024)
                 then MLE else SUCCESS)
  ∧ r_execution_time r = Some (elapsed_ms d).
Proof.
  intros Hrun Hs r. subst r. rewrite (execute_code_exited _ _ _ _ _ _ _ Hrun).
  unfold classify. rewrite bool_decide_eq_false_2 by (intros H; by apply H).
  by case_bool_decide.
Qed.

Lemma zero_exit_is_never_TLE_witness :
  Spec.ran_to_exit "python" Demo.slow_success
    {| StatusCode := 0; elapsed_ms := 5000; stdout := "1"; stderr := EmptyString;
       usage := Some 4096 |}
  ∧ r_verdict (execute_code "python" "import time; time.sleep(5); print(1)" "1" 1000 64
                 Demo.slow_success) = SUCCESS.
Proof.
  assert (Spec.ran_to_exit "python" Demo.slow_success
            {| StatusCode := 0; elapsed_ms := 5000; stdout := "1"; stderr := EmptyString;
               usage := Some 4096 |}) as Hran.
  { eexists. split; [vm_compute; reflexivity|].
    split; [reflexivity|]. split; [|split; reflexivity].
    intros Hs. vm_compute in Hs. discriminate. }
  split; [exact Hran|].
  exact (proj1 (zero_exit_is_never_TLE "python" "import time; time.sleep(5); print(1)"
                  "1" 1000 64 _ _ Hran eq_refl)).
Defined.

(** ** Further properties of the judge *)

Section loop_records.

Variables (language code : string) (problem_data : Problem).

(** What one iteration appends and what it costs. *)
Lemma loop_body_record i tc st (w : World) :
  ∃ r, results (loop_body language code problem_data i tc st w).1.1 = results st ++ [r]
    ∧ test_case r = i + 1
    ∧ max_time (loop_body language code problem_data i tc st w).1.1
      = Z.max (max_time st) (t_execution_time r)
    ∧ max_memory (loop_body language code problem_data i tc st w).1.1
      = Z.max (max_memory st) (t_memory_used r)
    ∧ ∀ n, (loop_body language code problem_data i tc st w).2 n
           = w (sandbox_calls problem_data [r] + n)%nat.
Proof.
  destruct (decide (r_verdict (execute_code language code (input tc)
                                 (p_time_limit problem_data) (p_memory_limit problem_data)
                                 (w 0%nat)) = SUCCESS)) as [Hs|Hs].
  - destruct (has_checker problem_data) eqn:Hc.
    + rewrite (loop_body_checked _ _ _ _ _ _ _ Hs Hc). cbn.
      eexists. split; [done|]. cbn. rewrite Hc. by repeat split.
    + rewrite (loop_body_compared _ _ _ _ _ _ _ Hs Hc). cbn.
      eexists. split; [done|]. cbn. rewrite Hc. by repeat split.
  - rewrite (loop_body_failed _ _ _ _ _ _ _ Hs). cbn.
    eexists. split; [done|]. cbn. by repeat split.
Qed.

Lemma sandbox_calls_app out1 out2 :
  sandbox_calls problem_data (out1 ++ out2)
  = (sandbox_calls problem_data out1 + sandbox_calls problem_data out2)%nat.
Proof.
  induction out1 as [|r out1 IH]; [done|].
  unfold sandbox_calls in *. cbn [app foldr]. rewrite IH. lia.
Qed.

(** The records a run of the loop appends are numbered from [i + 1] on,
    the two maxima are those of the records, and the environment has
    moved on by the calls behind the records. *)
Lemma judge_loop_records tcs : ∀ i st (w : World),
  ∃ new,
    results (judge_loop language code problem_data i tcs st w).1 = results st ++ new
    ∧ (∀ (j : nat) r, new !! j = Some r → test_case r = i + Z.of_nat j + 1)
    ∧ max_time (judge_loop language code problem_data i tcs st w).1
      = foldr Z.max (max_time st) (map t_execution_time new)
    ∧ max_memory (judge_loop language code problem_data i tcs st w).1
      = foldr Z.max (max_memory st) (map t_memory_used new)
    ∧ ∀ n, (judge_loop language code problem_data i tcs st w).2 n
           = w (sandbox_calls problem_data new + n)%nat.
Proof.
  induction tcs as [|tc rest IH]; intros i st w.
  { exists []. cbn. rewrite app_nil_r. by repeat split. }
  cbn [judge_loop]. unfold mbind, M_bind.
  destruct (loop_body_record i tc st w) as (r & Hres & Hno & Ht & Hm & Hw).
  destruct (loop_body language code problem_data i tc st w) as [[st1 continue] w1].
  cbn [fst snd] in *. destruct continue.
  - destruct (IH (i + 1) st1 w1) as (new & Hres' & Hno' & Ht' & Hm' & Hw').
    exists (r :: new). rewrite Hres', Hres, Ht', Hm'.
    split; [by rewrite <- app_assoc|]. split.
    { intros [|j] r' Hj; cbn in Hj.
      - inversion Hj; subst. lia.
      - rewrite (Hno' _ _ Hj). lia. }
    split.
    { rewrite Ht. cbn [map foldr]. clear.
      induction (map t_execution_time new) as [|x l IHl]; cbn; [lia|]. rewrite IHl. lia. }
    split.
    { rewrite Hm. cbn [map foldr]. clear.
      induction (map t_memory_used new) as [|x l IHl]; cbn; [lia|]. rewrite IHl. lia. }
    intros n. rewrite Hw', Hw. f_equal.
    change (r :: new) with ([r] ++ new). rewrite sandbox_calls_app. lia.
  - exists [r]. cbn [mret M_ret fst snd]. rewrite Hres, Ht, Hm.
    split; [done|]. split.
    { intros [|j] r' Hj; cbn in Hj; [|by destruct j]. inversion Hj; subst. lia. }
    split; [cbn; lia|]. split; [cbn; lia|]. exact Hw.
Qed.

End loop_records.

(** [judge_problem] in terms of the loop. *)
Lemma judge_problem_unfold language code problem_data now w :
  judge_problem language code problem_data now w
  = (let st := (judge_loop language code problem_data 0 (test_cases problem_data)
                  {| results := []; passed_count := 0; max_time := 0; max_memory := 0 |}
                  w).1 in
     {| u_verdict := final_verdict (passed_count st) (test_cases problem_data) (results st);
        u_execution_time := max_time st;
        u_memory_used := max_memory st;
        u_test_cases_passed := passed_count st;
        u_total_test_cases := Z.of_nat (length (test_cases problem_data));
        u_judge_output := results st;
        u_judged_at := now |},
     (judge_loop language code problem_data 0 (test_cases problem_data)
        {| results := []; passed_count := 0; max_time := 0; max_memory := 0 |} w).2).
Proof.
  unfold judge_problem, mbind, M_bind, mret, M_ret.
  by destruct (judge_loop _ _ _ _ _ _ _).
Qed.

(** X6: a problem without test cases accepts every submission, whatever
    its language and code: the verdict is AC with 0 of 0 tests passed, no
    record, time and memory 0, and the sandbox is not called. *)
Theorem no_test_cases_is_AC language code problem_data now w :
  test_cases problem_data = [] →
  judge_problem language code problem_data now w
  = ({| u_verdict := AC; u_execution_time := 0; u_memory_used := 0;
        u_test_cases_passed := 0; u_total_test_cases := 0;
        u_judge_output := []; u_judged_at := now |}, w).
Proof.
  intros Htc. rewrite judge_problem_unfold, Htc. reflexivity.
Qed.

Lemma no_test_cases_is_AC_witness :
  judge_problem "ruby" "puts 1" Demo.untested "2025-01-01T00:00:00"
    (fun _ => Sample.oom_killed)
  = ({| u_verdict := AC; u_execution_time := 0; u_memory_used := 0;
        u_test_cases_passed := 0; u_total_test_cases := 0;
        u_judge_output := []; u_judged_at := "2025-01-01T00:00:00" |},
     fun _ => Sample.oom_killed).
Proof. apply no_test_cases_is_AC. reflexivity. Defined.

Lemma final_verdict_passing_then passed tcs acs bad :
  passed ≠ Z.of_nat (length tcs) →
  Forall (fun r => t_verdict r = AC) acs →
  t_verdict bad ∈ [WA; TLE; MLE; RE; CE] →
  final_verdict passed tcs (acs ++ [bad])
  = if decide (t_verdict bad = CE) then WA else t_verdict bad.
Proof.
  intros Hp Hacs Hbad. unfold final_verdict.
  rewrite bool_decide_eq_false_2 by done.
  assert (∀ v, v ≠ AC → v ∈ map t_verdict (acs ++ [bad]) ↔ v = t_verdict bad) as Hin.
  { intros v Hv. rewrite map_app, elem_of_app. cbn. rewrite list_elem_of_singleton.
    split; [|by right]. intros [Hel|]; [|done].
    apply list_elem_of_fmap in Hel as (r & -> & Hel).
    rewrite Forall_forall in Hacs. by apply Hacs in Hel. }
  rewrite !elem_of_cons, elem_of_nil in Hbad.
  repeat case_bool_decide;
    repeat match goal with
           | H : _ ∈ map _ _ |- _ => apply Hin in H; [|done]
           | H : _ ∉ map _ _ |- _ => rewrite Hin in H by done
           end;
    case_decide; try congruence;
    destruct Hbad as [E| [E| [E| [E| [E|[]]]]]]; congruence.
Qed.

(** X7: the verdict of a judged submission is the verdict of the last
    record of [judge_output], the one on which judging ended, except that
    a last record CE gives the verdict WA; with no record at all the
    verdict is AC. *)
Theorem verdict_is_that_of_last_record language code problem_data now w :
  let u := (judge_problem language code problem_data now w).1 in
  u_verdict u = match last (u_judge_output u) with
                | None => AC
                | Some r => if decide (t_verdict r = CE) then WA else t_verdict r
                end.
Proof.
  rewrite judge_problem_unfold. cbn [fst u_verdict u_judge_output].
  destruct (judge_loop_shape language code problem_data (test_cases problem_data) 0
              {| results := []; passed_count := 0; max_time := 0; max_memory := 0 |} w)
    as (acs & tail & -> & Hacs & -> & Htail).
  cbn [results passed_count app].
  destruct Htail as [[-> Hlen]|(bad & -> & Hbad & Hlen)].
  - rewrite app_nil_r.
    replace (final_verdict _ _ _) with AC
      by (symmetry; apply final_verdict_AC_iff; lia).
    destruct (last acs) as [r|] eqn:Hlast; [|done].
    apply last_Some_elem_of in Hlast. rewrite Forall_forall in Hacs.
    rewrite (Hacs _ Hlast). done.
  - rewrite last_snoc. apply final_verdict_passing_then; [lia|done|done].
Qed.

(** X8: the execution time and the memory use written for a submission
    are the largest values among the records of [judge_output], and 0 when
    there is none. *)
Theorem time_and_memory_are_maxima language code problem_data now w :
  let u := (judge_problem language code problem_data now w).1 in
  u_execution_time u = foldr Z.max 0 (map t_execution_time (u_judge_output u))
  ∧ u_memory_used u = foldr Z.max 0 (map t_memory_used (u_judge_output u)).
Proof.
  rewrite judge_problem_unfold. cbn [fst u_execution_time u_memory_used u_judge_output].
  destruct (judge_loop_records language code problem_data (test_cases problem_data) 0
              {| results := []; passed_count := 0; max_time := 0; max_memory := 0 |} w)
    as (new & -> & _ & -> & -> & _).
  done.
Qed.

(** X9: the records of [judge_output] are numbered 1, 2, 3, ... in the
    order of the test cases. *)
Theorem records_are_numbered language code problem_data now w (j : nat) r :
  u_judge_output (judge_problem language code problem_data now w).1 !! j = Some r →
  test_case r = Z.of_nat j + 1.
Proof.
  rewrite judge_problem_unfold. cbn [fst u_judge_output].
  destruct (judge_loop_records language code problem_data (test_cases problem_data) 0
              {| results := []; passed_count := 0; max_time := 0; max_memory := 0 |} w)
    as (new & -> & Hno & _).
  cbn. intros Hj. rewrite (Hno _ _ Hj). lia.
Qed.

Lemma records_are_numbered_witness :
  ∃ r, u_judge_output (judge_problem "python" "print(input())" Sample.spaced
                         "2025-01-01T00:00:00" Sample.spaced_world).1 !! 1%nat = Some r
    ∧ test_case r = 2.
Proof.
  eexists. split; [vm_compute; reflexivity|].
  apply (records_are_numbered "python" "print(input())" Sample.spaced
           "2025-01-01T00:00:00" Sample.spaced_world 1).
  vm_compute. reflexivity.
Defined.

Lemma filter_all_AC acs :
  Forall (fun r => t_verdict r = AC) acs →
  filter (fun r => t_verdict r = AC) acs = acs.
Proof.
  induction 1 as [|r acs Hr _ IH]; [done|].
  rewrite filter_cons_True by done. by rewrite IH.
Qed.

(** X10: [test_cases_passed] is the number of AC records in
    [judge_output], and it lies between 0 and [total_test_cases]. *)
Theorem passed_counts_AC_records language code problem_data now w :
  let u := (judge_problem language code problem_data now w).1 in
  u_test_cases_passed u
  = Z.of_nat (length (filter (fun r => t_verdict r = AC) (u_judge_output u)))
  ∧ 0 ≤ u_test_cases_passed u ≤ u_total_test_cases u.
Proof.
  rewrite judge_problem_unfold.
  cbn [fst u_test_cases_passed u_total_test_cases u_judge_output].
  destruct (judge_loop_shape language code problem_data (test_cases problem_data) 0
              {| results := []; passed_count := 0; max_time := 0; max_memory := 0 |} w)
    as (acs & tail & -> & Hacs & -> & Htail).
  cbn [results passed_count app].
  rewrite filter_app, (filter_all_AC _ Hacs), length_app.
  destruct Htail as [[-> Hlen]|(bad & -> & Hbad & Hlen)].
  - cbn. lia.
  - rewrite filter_cons_False, filter_nil; [cbn; lia|].
    rewrite !elem_of_cons, elem_of_nil in Hbad.
    destruct Hbad as [->| [->| [->| [->| [->|[]]]]]]; done.
Qed.

Lemma sandbox_calls_bounds problem_data out :
  (length out ≤ sandbox_calls problem_data out
   ≤ (if has_checker problem_data then 2 else 1) * length out)%nat.
Proof.
  induction out as [|r out IH]; [cbn; lia|].
  change (r :: out) with ([r] ++ out). rewrite sandbox_calls_app. cbn.
  destruct (t_detail r), (has_checker problem_data); lia.
Qed.

(** X11: judging a submission calls the sandbox once for each record of
    [judge_output], and once more for each record checked by a checker;
    it calls it for nothing else, so no test case after the one on which
    judging stopped is executed. *)
Theorem sandbox_calls_follow_records language code problem_data now (w : World) :
  let u := (judge_problem language code problem_data now w).1 in
  (∀ n, (judge_problem language code problem_data now w).2 n
        = w (sandbox_calls problem_data (u_judge_output u) + n)%nat)
  ∧ (length (u_judge_output u) ≤ sandbox_calls problem_data (u_judge_output u)
     ≤ (if has_checker problem_data then 2 else 1) * length (u_judge_output u))%nat.
Proof.
  rewrite judge_problem_unfold. cbn [fst snd u_judge_output].
  split; [|apply sandbox_calls_bounds].
  destruct (judge_loop_records language code problem_data (test_cases problem_data) 0
              {| results := []; passed_count := 0; max_time := 0; max_memory := 0 |} w)
    as (new & -> & _ & _ & _ & Hw).
  exact Hw.
Qed.

(** ** Further properties of the two writes *)

Lemma judge_submission_store job now db w :
  (judge_submission job now db w).1
  = match problems db !! problem_id job with
    | None => mark_judging (submission_id job) db
    | Some problem_data =>
        update_submission
          (apply_update (judge_problem (j_language job) (j_code job) problem_data now w).1)
          (submission_id job) (mark_judging (submission_id job) db)
    end.
Proof.
  unfold judge_submission, mbind, M_bind, mret, M_ret.
  destruct (problems db !! problem_id job) as [problem_data|] eqn:Hp.
  - by rewrite (judge_submission_writes_found _ _ _ _ _ Hp).
  - by rewrite (judge_submission_writes_missing _ _ _ _ Hp).
Qed.

(** X12: judging a job leaves every other row of [submissions] and the
    whole table [problems] as they were. *)
Theorem judging_touches_one_row job now db w id :
  id ≠ submission_id job →
  submissions (judge_submission job now db w).1 !! id = submissions db !! id
  ∧ problems (judge_submission job now db w).1 = problems db.
Proof.
  intros Hid. rewrite judge_submission_store.
  destruct (problems db !! problem_id job); cbn;
    rewrite ?lookup_alter_ne by done; done.
Qed.

Lemma judging_touches_one_row_witness :
  submissions (judge_submission (Sample.job "python" 7) "2025-01-01T00:00:00"
                 (Sample.db (Sample.row PENDING) None)
                 (fun _ => Sample.exited 0 12 "1" EmptyString None)).1 !! 2 = None
  ∧ problems (judge_submission (Sample.job "python" 7) "2025-01-01T00:00:00"
                (Sample.db (Sample.row PENDING) None)
                (fun _ => Sample.exited 0 12 "1" EmptyString None)).1
    = problems (Sample.db (Sample.row PENDING) None).
Proof.
  apply (judging_touches_one_row (Sample.job "python" 7) "2025-01-01T00:00:00"
           (Sample.db (Sample.row PENDING) None)
           (fun _ => Sample.exited 0 12 "1" EmptyString None) 2).
  discriminate.
Defined.

(** X13: a job whose submission id matches no row changes nothing in the
    store: both updates apply to no row, and no row is created. *)
Theorem job_without_row_changes_nothing job now db w :
  submissions db !! submission_id job = None →
  (judge_submission job now db w).1 = db.
Proof.
  intros Hr. rewrite judge_submission_store.
  destruct db as [subs probs]. cbn in *.
  destruct (probs !! problem_id job); unfold mark_judging, update_submission; cbn;
    f_equal; rewrite ?alter_id'; try done.
  by rewrite alter_id'.
Qed.

Lemma job_without_row_changes_nothing_witness :
  (judge_submission {| submission_id := 5; problem_id := 7; j_language := "python";
                       j_code := "print(1)" |} "2025-01-01T00:00:00"
     (Sample.db (Sample.row PENDING) None)
     (fun _ => Sample.exited 0 12 "1" EmptyString None)).1
  = Sample.db (Sample.row PENDING) None.
Proof.
  apply (job_without_row_changes_nothing
           {| submission_id := 5; problem_id := 7; j_language := "python";
              j_code := "print(1)" |}).
  vm_compute. reflexivity.
Defined.

(** X15: judging leaves no trace of an earlier judging of the same job:
    the row after a second delivery is the row a first delivery would
    have produced under the same behaviour of the sandbox. *)
Theorem last_judging_wins job now now' db w w' :
  submissions (judge_submission job now' (judge_submission job now db w).1 w').1
    !! submission_id job
  = submissions (judge_submission job now' db w').1 !! submission_id job.
Proof.
  rewrite (judge_submission_store job now' (judge_submission job now db w).1).
  rewrite (judge_submission_store job now' db).
  assert (problems (judge_submission job now db w).1 = problems db) as ->.
  { rewrite judge_submission_store. by destruct (problems db !! problem_id job). }
  rewrite (judge_submission_store job now db w).
  destruct (problems db !! problem_id job) as [problem_data|]; cbn;
    rewrite !lookup_alter_eq; destruct (submissions db !! submission_id job); done.
Qed.

(** The loop reads a test case through [input] and [expected_output], and
    a problem through its limits and its checker. *)
Lemma judge_loop_ignores_hidden language code p p' tcs tcs' :
  p_time_limit p = p_time_limit p' → p_memory_limit p = p_memory_limit p' →
  checker_code p = checker_code p' → checker_language p = checker_language p' →
  Forall2 (fun a b => input a = input b ∧ expected_output a = expected_output b)
    tcs tcs' →
  ∀ i st w, judge_loop language code p i tcs st w = judge_loop language code p' i tcs' st w.
Proof.
  intros Ht Hm Hcc Hcl Htcs. induction Htcs as [|a b tcs tcs' [Hin Hexp] _ IH];
    intros i st w; [done|].
  cbn [judge_loop]. unfold mbind, M_bind.
  assert (loop_body language code p i a st w = loop_body language code p' i b st w) as ->.
  { unfold loop_body, check_output, has_checker. by rewrite Ht, Hm, Hcc, Hcl, Hin, Hexp. }
  destruct (loop_body language code p' i b st w) as [[st1 continue] w1].
  destruct continue; [apply IH|done].
Qed.

(** X14: the judge does not read the flag [hidden]: two problems that
    differ in the flags of their test cases only are judged alike. *)
Theorem judge_ignores_hidden language code p p' now w :
  p_time_limit p = p_time_limit p' → p_memory_limit p = p_memory_limit p' →
  checker_code p = checker_code p' → checker_language p = checker_language p' →
  Forall2 (fun a b => input a = input b ∧ expected_output a = expected_output b)
    (test_cases p) (test_cases p') →
  judge_problem language code p now w = judge_problem language code p' now w.
Proof.
  intros Ht Hm Hcc Hcl Htcs. rewrite !judge_problem_unfold.
  rewrite (judge_loop_ignores_hidden language code p p' _ _ Ht Hm Hcc Hcl Htcs).
  unfold final_verdict. by rewrite (Forall2_length _ _ _ Htcs).
Qed.

Lemma judge_ignores_hidden_witness :
  judge_problem "python" "print(input())" (Sample.echo None) "2025-01-01T00:00:00"
    (fun _ => Sample.exited 0 12 "1" EmptyString None)
  = judge_problem "python" "print(input())"
      {| test_cases := [ {| input := "1"; expected_output := "1"; hidden := true |};
                         {| input := "2"; expected_output := "2"; hidden := false |} ];
         p_time_limit := 1000; p_memory_limit := 64;
         checker_code := None; checker_language := None |}
      "2025-01-01T00:00:00" (fun _ => Sample.exited 0 12 "1" EmptyString None).
Proof.
  apply judge_ignores_hidden; try reflexivity.
  repeat constructor.
Defined.

(** ** The endpoints and the worker loop *)

(** X16: a submission to an existing problem is stored as a PENDING row
    that its author reads back through [get_submission], as does an
    administrator, while any other user is refused with status 403. *)
Theorem submitted_row_is_readable submission user_id new_id sys profiles :
  is_Some (problems (store sys) !! sc_problem_id submission) →
  let row := {| s_problem_id := sc_problem_id submission; s_user_id := user_id;
                s_language := sc_language submission; s_code := sc_code submission;
                s_verdict := PENDING;
                s_execution_time := None; s_memory_used := None;
                s_test_cases_passed := None; s_total_test_cases := None;
                s_judge_output := None; s_judged_at := None |} in
  let db := store (submit_solution submission user_id new_id sys).2 in
  (submit_solution submission user_id new_id sys).1 = Ok (new_id, "queued")
  ∧ get_submission profiles new_id user_id db = Ok row
  ∧ ∀ reader, reader ≠ user_id →
      get_submission profiles new_id reader db
      = if decide (profiles !! reader = Some "admin") then Ok row
        else HTTPException 403 "Access denied".
Proof.
  intros [p Hp]. unfold submit_solution. rewrite Hp. cbn [fst snd store].
  split; [done|]. unfold get_submission. cbn [submissions].
  rewrite lookup_insert_eq. cbn [s_user_id]. split.
  - rewrite bool_decide_eq_false_2 by (intros H; by apply H). done.
  - intros reader Hne. rewrite bool_decide_eq_true_2 by done. cbn [andb].
    destruct (profiles !! reader) as [role|] eqn:Hrole.
    + case_bool_decide; case_decide; simplify_eq; try done.
    + by rewrite decide_False.
Qed.

Lemma submitted_row_is_readable_witness :
  (submit_solution Demo.submission "u2" 2 Demo.system).1 = Ok (2, "queued")
  ∧ get_submission Demo.profiles 2 "u1"
      (store (submit_solution Demo.submission "u2" 2 Demo.system).2)
    = HTTPException 403 "Access denied".
Proof.
  destruct (submitted_row_is_readable Demo.submission "u2" 2 Demo.system Demo.profiles)
    as (H1 & _ & H3).
  { eexists. vm_compute. reflexivity. }
  split; [exact H1|].
  exact (H3 "u1" ltac:(discriminate)).
Defined.

(** A submission to a problem that is not in the store is refused with
    status 404; no row is created and nothing is queued. *)
Lemma submission_to_missing_problem submission user_id new_id sys :
  problems (store sys) !! sc_problem_id submission = None →
  submit_solution submission user_id new_id sys
  = (HTTPException 404 "Problem not found", sys).
Proof. intros Hp. unfold submit_solution. by rewrite Hp. Qed.

Lemma submission_to_missing_problem_witness :
  submit_solution {| sc_problem_id := 8; sc_language := "python"; sc_code := "print(1)" |}
    "u2" 2 Demo.system
  = (HTTPException 404 "Problem not found", Demo.system).
Proof. apply submission_to_missing_problem. vm_compute. reflexivity. Defined.

Lemma brpop_snoc q payload : brpop (q ++ [payload]) = Some (q, payload).
Proof. unfold brpop. by rewrite last_snoc, removelast_last. Qed.

Lemma judge_submission_identity job now db w id :
  identity_columns <$> submissions (judge_submission job now db w).1 !! id
  = identity_columns <$> submissions db !! id.
Proof.
  rewrite judge_submission_store.
  destruct (problems db !! problem_id job); cbn;
    rewrite ?lookup_alter; repeat case_decide; subst;
    by destruct (submissions db !! _).
Qed.

Lemma judge_submission_problems job now db w :
  problems (judge_submission job now db w).1 = problems db.
Proof. rewrite judge_submission_store. by destruct (problems db !! problem_id job). Qed.

Lemma main_iteration_keeps loads now sys w :
  problems (store (main_iteration loads now sys w).1) = problems (store sys)
  ∧ ∀ id, identity_columns <$> submissions (store (main_iteration loads now sys w).1) !! id
          = identity_columns <$> submissions (store sys) !! id.
Proof.
  unfold main_iteration.
  destruct (brpop (judge_queue sys)) as [[rest payload]|]; [|done].
  destruct (loads payload) as [job|]; [|done].
  unfold mbind, M_bind, mret, M_ret.
  pose proof (judge_submission_problems job now (store sys) w).
  pose proof (judge_submission_identity job now (store sys) w).
  by destruct (judge_submission job now (store sys) w).
Qed.

(** X17: the worker never touches the table of problems and never
    creates, deletes or re-attributes a row of submissions: after any
    number of iterations, on any queue, every row is there with the
    problem, user, language and code it had. *)
Theorem main_keeps_tables loads n : ∀ clock sys w,
  problems (store (main loads clock n sys w).1) = problems (store sys)
  ∧ ∀ id, identity_columns <$> submissions (store (main loads clock n sys w).1) !! id
          = identity_columns <$> submissions (store sys) !! id.
Proof.
  induction n as [|n IH]; intros clock sys w; [done|].
  cbn [main]. unfold mbind, M_bind.
  destruct (main_iteration_keeps loads (clock 0%nat) sys w) as [Hp Hi].
  destruct (main_iteration loads (clock 0%nat) sys w) as [sys1 w1]. cbn [fst] in *.
  destruct (IH (fun k => clock (S k)) sys1 w1) as [Hp' Hi'].
  split; [congruence|]. intros id. by rewrite Hi', Hi.
Qed.

(** X18: with an empty queue the loop idles: any number of iterations
    changes nothing and calls nothing. *)
Theorem main_idles_on_empty_queue loads n : ∀ clock sys w,
  judge_queue sys = [] → main loads clock n sys w = (sys, w).
Proof.
  induction n as [|n IH]; intros clock sys w Hq; [done|].
  cbn [main]. unfold mbind, M_bind, main_iteration. rewrite Hq. cbn.
  by apply IH.
Qed.

Lemma main_idles_on_empty_queue_witness :
  main (fun _ => None) (fun _ => "2025-01-01T00:00:00") 3
    {| store := Sample.db (Sample.row PENDING) None; judge_queue := [] |}
    (fun _ => Sample.oom_killed)
  = ({| store := Sample.db (Sample.row PENDING) None; judge_queue := [] |},
     fun _ => Sample.oom_killed).
Proof. apply main_idles_on_empty_queue. reflexivity. Defined.

(** X19: messages the worker cannot decode are taken off the queue and
    dropped, one per iteration, without a write to the store or a call to
    the sandbox; the loop goes on. *)
Theorem undecodable_messages_are_dropped loads q : ∀ clock db w,
  Forall (fun payload => loads payload = None) q →
  main loads clock (length q) {| store := db; judge_queue := q |} w
  = ({| store := db; judge_queue := [] |}, w).
Proof.
  induction q as [|payload q IH] using rev_ind; intros clock db w Hq; [done|].
  apply Forall_app in Hq as [Hq Hp]. apply Forall_inv in Hp.
  rewrite length_app, Nat.add_comm. cbn [length Nat.add main].
  unfold mbind, M_bind, main_iteration. cbn [judge_queue store].
  rewrite brpop_snoc. cbn beta iota. rewrite Hp. cbn. by apply IH.
Qed.

Lemma undecodable_messages_are_dropped_witness :
  main (Demo.loads_only (Sample.job "python" 7)) (fun _ => "2025-01-01T00:00:00") 1
    Demo.system (fun _ => Sample.oom_killed)
  = ({| store := Sample.db (Sample.row PENDING) None; judge_queue := [] |},
     fun _ => Sample.oom_killed).
Proof.
  apply (undecodable_messages_are_dropped (Demo.loads_only (Sample.job "python" 7))
           ["not json"]).
  repeat constructor.
Defined.







(** ** When a submission is accepted *)

(** X21: without a checker, a submission is accepted exactly when on
    every test case of the problem the execution succeeds and its output
    equals the expected output after stripping both. *)
Theorem accepted_iff_all_outputs_match language code problem_data now (w : World) :
  has_checker problem_data = false →
  u_verdict (judge_problem language code problem_data now w).1 = AC
  ↔ ∀ (j : nat) tc, test_cases problem_data !! j = Some tc →
      let result := execute_code language code (input tc) (p_time_limit problem_data)
                      (p_memory_limit problem_data) (w j) in
      r_verdict result = SUCCESS
      ∧ PyStr.strip (get_output result) = PyStr.strip (expected_output tc).
Proof.
  intros Hc. rewrite judge_problem_unfold. cbn [fst u_verdict].
  destruct (judge_loop_shape language code problem_data (test_cases problem_data) 0
              {| results := []; passed_count := 0; max_time := 0; max_memory := 0 |} w)
    as (acs & tail & Hres & Hacs & Hp & Htail).
  destruct (judge_loop_compared language code problem_data (test_cases problem_data) 0
              {| results := []; passed_count := 0; max_time := 0; max_memory := 0 |} w Hc)
    as (new & Hres' & Hnew).
  rewrite Hres' in Hres. cbn [results passed_count app] in Hres, Hp. subst new.
  rewrite final_verdict_AC_iff, Hp.
  split.
  - intros Hall j tc Htc. cbv zeta.
    destruct Htail as [[-> Hlen]|(bad & -> & Hbad & Hlen)]; [|lia].
    rewrite app_nil_r in Hnew.
    destruct (lookup_lt_is_Some_2 acs j) as [r Hr].
    { rewrite Hlen. by eapply lookup_lt_Some. }
    destruct (Hnew j r Hr) as (tc' & Htc' & Hcmp).
    assert (tc' = tc) as -> by congruence.
    rewrite Forall_forall in Hacs.
    assert (t_verdict r = AC) as Hr' by (apply Hacs; by eapply list_elem_of_lookup_2).
    unfold Spec.compared, Spec.user_run in Hcmp. cbv zeta in Hcmp.
    case_decide as Hs.
    + split; [done|]. rewrite Hr' in Hcmp. by case_decide.
    + exfalso. rewrite Hr' in Hcmp.
      pose proof (execute_code_verdict language code (input tc)
                    (p_time_limit problem_data) (p_memory_limit problem_data) (w j)) as Hv.
      rewrite <- Hcmp, !elem_of_cons, elem_of_nil in Hv.
      destruct Hv as [?| [?| [?| [?| [?|[]]]]]]; done.
  - intros Hall.
    destruct Htail as [[-> Hlen]|(bad & -> & Hbad & Hlen)]; [lia|]. exfalso.
    destruct (Hnew (length acs) bad) as (tc & Htc & Hcmp).
    { by rewrite lookup_app_r, Nat.sub_diag by lia. }
    destruct (Hall _ _ Htc) as [Hs Heq].
    unfold Spec.compared, Spec.user_run in Hcmp. cbv zeta in Hcmp.
    rewrite decide_True in Hcmp by done. rewrite decide_True in Hcmp by done.
    rewrite Hcmp, !elem_of_cons, elem_of_nil in Hbad.
    destruct Hbad as [?| [?| [?| [?| [?|[]]]]]]; done.
Qed.

Lemma accepted_iff_all_outputs_match_witness :
  u_verdict (judge_problem "python" "print(input())" Sample.spaced "2025-01-01T00:00:00"
               Sample.spaced_world).1 ≠ AC.
Proof.
  intros HAC.
  pose proof (proj1 (accepted_iff_all_outputs_match "python" "print(input())" Sample.spaced
                       "2025-01-01T00:00:00" Sample.spaced_world eq_refl) HAC
                1%nat {| input := "3 4"; expected_output := "3 4"; hidden := false |}
                eq_refl) as [_ Heq].
  vm_compute in Heq. discriminate.
Defined.

(** X22: with a checker, a submission is accepted as soon as on every
    test case the execution succeeds and the checker accepts, whatever
    the outputs are literally; every test case then has its AC record. *)
Theorem accepted_when_checker_accepts_all language code problem_data now (w : World) :
  has_checker problem_data = true →
  (∀ (j : nat) tc, test_cases problem_data !! j = Some tc →
     Spec.checker_passes language code problem_data tc (w (2 * j)%nat) (w (S (2 * j)))) →
  let u := (judge_problem language code problem_data now w).1 in
  u_verdict u = AC
  ∧ u_test_cases_passed u = u_total_test_cases u
  ∧ length (u_judge_output u) = length (test_cases problem_data)
  ∧ Forall (fun r => t_verdict r = AC) (u_judge_output u).
Proof.
  intros Hc Hpass. rewrite judge_problem_unfold.
  cbn [fst u_verdict u_test_cases_passed u_total_test_cases u_judge_output].
  destruct (judge_loop_passing_prefix language code problem_data
              (test_cases problem_data) 0
              {| results := []; passed_count := 0; max_time := 0; max_memory := 0 |}
              w [] Hc Hpass)
    as (st1 & w1 & acs & Heq & _ & Hres & Hacs & Hlen & Hp).
  rewrite app_nil_r in Heq. rewrite Heq. cbn [judge_loop mret M_ret fst].
  cbn [results passed_count app] in Hres, Hp. rewrite Hres, Hp.
  split; [apply final_verdict_AC_iff; lia|]. split; [lia|done].
Qed.

Lemma accepted_when_checker_accepts_all_witness :
  u_verdict (judge_problem "python" "print(7)" Sample.checked "2025-01-01T00:00:00"
               (fun n => if Nat.even n then Sample.exited 0 12 " 7 " EmptyString None
                         else Sample.exited 0 15 "accept" EmptyString None)).1 = AC.
Proof.
  refine (proj1 (accepted_when_checker_accepts_all "python" "print(7)" Sample.checked
                   "2025-01-01T00:00:00" _ eq_refl _)).
  intros [|[|[|j]]] tc Hj; cbn in Hj; [| | |by destruct j]; injection Hj as <-;
    vm_compute; split; reflexivity.
Defined.
